(** * Offline data dashboard: ingestion, filtering, aggregation, board state

    A shallow embedding of the pure logic of the dashboard
    ([src/lib/data.ts], [src/components/BoardGrid.tsx], [src/App.tsx],
    [src/components/WidgetConfigModal.tsx]) together with the JavaScript
    and lodash primitives it calls, followed by the properties of the
    specification and further properties of the code.

    Layout of the file:
    - [JS]        values, strings, numbers (IEEE binary64), ordinary objects;
    - [Lodash]    [groupBy], [sumBy], [intersection];
    - [Data]      [processExcelFile], [aggregateData];
    - [BoardGrid] [getFilteredRows];
    - [App]       datasets, boards, [handleFileChange], [removeDataset],
                  [commonColumns], [getBoardSpecificData];
    - [Spec]      the wording of the specification, where a property compares
                  the code with it;
    - [Builtins]  [trim], [sort], [_.uniq], [slice];
    - [AppView]   the view state and the handlers of boards, widgets and
                  slicers;
    - [Modal]     the form of the widget modal, [handleSubmit];
    - [Render]    what a board of [BoardGrid] shows;
    - [Invariants] the user actions as a step relation, and what they keep;
    - the lemmas and theorems. *)

From Stdlib Require Import ZArith List String Ascii Floats Permutation Sorted.
From stdpp Require Import base list strings gmap.

(** Decimal literals such as [1.005] denote the nearest binary64 value. *)
Set Warnings "-inexact-float".

(* ===================================================================== *)
(** * JavaScript primitives                                               *)
(* ===================================================================== *)

Module JS.

Local Open Scope Z_scope.

(** ** Values

    A cell of a parsed row holds a defined primitive; the result of a
    property read [row[col]] is an [option JsValue], [None] standing for
    [undefined]. Numbers are IEEE binary64, Rocq's primitive [float]. *)

Inductive JsValue : Type :=
| JsNull
| JsBoolean (b : bool)
| JsNumber (x : float)
| JsString (s : string).

(** [typeof val === 'boolean'] *)
Definition typeof_boolean (val : option JsValue) : bool :=
  match val with
  | Some (JsBoolean _) => true
  | _ => false
  end.

(** ** Strings (sequences of bytes, UTF-8) *)

(** [s.includes(c)] for a one-character needle. *)
Fixpoint includes_char (s : string) (c : ascii) : bool :=
  match s with
  | EmptyString => false
  | String a s' => Ascii.eqb a c || includes_char s' c
  end.

(** [array.includes(x)] on an array of strings. *)
Definition includes (l : list string) (x : string) : bool :=
  existsb (String.eqb x) l.

Definition is_digit (c : ascii) : bool :=
  (48 <=? Z.of_nat (nat_of_ascii c)) && (Z.of_nat (nat_of_ascii c) <=? 57).

Definition digit_val (c : ascii) : Z := Z.of_nat (nat_of_ascii c) - 48.

Fixpoint digits_val (acc : Z) (s : string) : Z :=
  match s with
  | EmptyString => acc
  | String c s' => digits_val (10 * acc + digit_val c) s'
  end.

Fixpoint all_digits (s : string) : bool :=
  match s with
  | EmptyString => true
  | String c s' => is_digit c && all_digits s'
  end.

(** A property key is an array index when it is the canonical decimal
    form of an integer in [0, 2^32 - 2]. *)
Definition array_index (p : string) : option Z :=
  match p with
  | EmptyString => None
  | String c rest =>
      if all_digits p
         && (negb (Ascii.eqb c "0") || String.eqb rest "")
         && (Z.of_nat (String.length p) <=? 10)
      then let n := digits_val 0 p in
           if n <? 4294967295 then Some n else None
      else None
  end.

Definition is_array_index (p : string) : bool :=
  match array_index p with Some _ => true | None => false end.

(** ** Numbers *)

(** The Number value of an integer, rounded to nearest, ties to even. *)
Definition Number_of_Z (z : Z) : float :=
  SF2Prim (binary_normalize prec emax z 0 false).

(** The Number value of the ratio [p/q], rounded to nearest, ties to even. *)
Definition Number_of_ratio (neg : bool) (p q : positive) : float :=
  SF2Prim (SFdiv prec emax (S754_finite neg p 0) (S754_finite false q 0)).

(** [array.length] as a Number. *)
Definition Number_of_nat (n : nat) : float := Number_of_Z (Z.of_nat n).

(** *** StringToNumber (ECMA-262, StringNumericLiteral) *)

(** Leading StrWhiteSpaceChar: TAB, LF, VT, FF, CR, SP and the UTF-8
    encodings of U+00A0, U+1680, U+2000..U+200A, U+2028, U+2029, U+202F,
    U+205F, U+3000 and U+FEFF. *)
Fixpoint skip_ws (s : string) : string :=
  match s with
  | String c rest =>
      let n := nat_of_ascii c in
      if ((9 <=? n) && (n <=? 13))%nat || (n =? 32)%nat then skip_ws rest
      else match s with
      | String "194" (String "160" r) => skip_ws r
      | String "225" (String "154" (String "128" r)) => skip_ws r
      | String "226" (String "128" (String d r)) =>
          let k := nat_of_ascii d in
          if ((128 <=? k) && (k <=? 138))%nat || (k =? 168)%nat
             || (k =? 169)%nat || (k =? 175)%nat
          then skip_ws r else s
      | String "226" (String "129" (String "159" r)) => skip_ws r
      | String "227" (String "128" (String "128" r)) => skip_ws r
      | String "239" (String "187" (String "191" r)) => skip_ws r
      | _ => s
      end
  | EmptyString => s
  end.

Definition only_ws (s : string) : bool := String.eqb (skip_ws s) "".

Fixpoint take_digits (s : string) : string * string :=
  match s with
  | String c rest =>
      if is_digit c then let '(d, r) := take_digits rest in (String c d, r)
      else (EmptyString, s)
  | EmptyString => (EmptyString, EmptyString)
  end.

Definition hex_val (c : ascii) : option Z :=
  let n := Z.of_nat (nat_of_ascii c) in
  if (48 <=? n) && (n <=? 57) then Some (n - 48)
  else if (97 <=? n) && (n <=? 102) then Some (n - 87)
  else if (65 <=? n) && (n <=? 70) then Some (n - 55)
  else None.

Fixpoint radix_digits (radix acc : Z) (s : string) : Z * string :=
  match s with
  | String c rest =>
      match hex_val c with
      | Some d =>
          if d <? radix then radix_digits radix (radix * acc + d) rest
          else (acc, s)
      | None => (acc, s)
      end
  | EmptyString => (acc, s)
  end.

(** [0x..], [0o..], [0b..]: at least one digit, then only white space. *)
Definition parse_radix (radix : Z) (body : string) : float :=
  let '(v, rest) := radix_digits radix 0 body in
  if negb (String.eqb rest body) && only_ws rest then Number_of_Z v else nan.

(** ExponentPart, when one is there: [e] or [E], a sign, digits. *)
Definition parse_exponent (s : string) : Z * string :=
  match s with
  | String c rest =>
      if Ascii.eqb c "e" || Ascii.eqb c "E" then
        let '(neg, body) :=
          match rest with
          | String "-" r => (true, r)
          | String "+" r => (false, r)
          | _ => (false, rest)
          end in
        let '(ds, r) := take_digits body in
        if String.eqb ds "" then (0, s)
        else ((if neg then - digits_val 0 ds else digits_val 0 ds), r)
      else (0, s)
  | EmptyString => (0, s)
  end.

(** The Number value of [m * 10^e]. Magnitudes far outside the binary64
    range are settled without building the power of ten. *)
Definition decimal_value (neg : bool) (m e : Z) : float :=
  match m with
  | Zpos p =>
      let mag := Z.log2 m * 30103 / 100000 + e in
      if 310 <? mag then (if neg then neg_infinity else infinity)
      else if mag <? -330 then (if neg then neg_zero else zero)
      else if 0 <=? e
           then Number_of_Z (if neg then - (m * 10 ^ e) else m * 10 ^ e)
           else Number_of_ratio neg p (Z.to_pos (10 ^ (- e)))
  | _ => if neg then neg_zero else zero
  end.

Definition parse_decimal (s : string) : float :=
  let '(neg, body) :=
    match s with
    | String "-" r => (true, r)
    | String "+" r => (false, r)
    | _ => (false, s)
    end in
  if String.prefix "Infinity" body then
    if only_ws (String.substring 8 (String.length body - 8) body)
    then (if neg then neg_infinity else infinity) else nan
  else
    let '(ip, r1) := take_digits body in
    let '(fp, r2) :=
      match r1 with
      | String "." r => take_digits r
      | _ => (EmptyString, r1)
      end in
    if String.eqb ip "" && String.eqb fp "" then nan
    else
      let '(ex, r3) := parse_exponent r2 in
      if only_ws r3
      then decimal_value neg (digits_val 0 (ip +:+ fp))
                         (ex - Z.of_nat (String.length fp))
      else nan.

Definition StringToNumber (str : string) : float :=
  let s := skip_ws str in
  match s with
  | EmptyString => zero
  | String "0" (String "x" body) | String "0" (String "X" body) =>
      parse_radix 16 body
  | String "0" (String "o" body) | String "0" (String "O" body) =>
      parse_radix 8 body
  | String "0" (String "b" body) | String "0" (String "B" body) =>
      parse_radix 2 body
  | _ => parse_decimal s
  end.

(** [Number(val)] *)
Definition Number_ (val : option JsValue) : float :=
  match val with
  | None => nan
  | Some JsNull => zero
  | Some (JsBoolean b) => if b then one else zero
  | Some (JsNumber x) => x
  | Some (JsString s) => StringToNumber s
  end.

(** [isNaN(x)] on a Number. *)
Definition isNaN (x : float) : bool := is_nan x.

(** [x || 0] on a Number: NaN, +0 and -0 are falsy. *)
Definition or_zero (x : float) : float :=
  if is_nan x || is_zero x then zero else x.

(** *** Number::toString (radix 10)

    For a finite non-zero [x = m * 2^e] the digits are the shortest decimal
    [s * 10^(n-k)], [s] of [k] digits, that reads back as [x]; among several
    the closest to [x]. [LO/D], [X/D] and [HI/D] are the lower end of the
    rounding interval of [x], [x] itself and the upper end. *)

(** compares [X/D] with [10^k] *)
Definition cmp_pow10 (X D k : Z) : comparison :=
  if 0 <=? k then X ?= D * 10 ^ k else X * 10 ^ (- k) ?= D.

(** the [n] with [10^(n-1) <= X/D < 10^n], searched from an estimate *)
Fixpoint decimal_exponent (fuel : nat) (X D n : Z) : Z :=
  match fuel with
  | O => n
  | S fuel' =>
      match cmp_pow10 X D (n - 1) with
      | Lt => decimal_exponent fuel' X D (n - 1)
      | _ => match cmp_pow10 X D n with
             | Lt => n
             | _ => decimal_exponent fuel' X D (n + 1)
             end
      end
  end.

(** compares [s * 10^(-t)] with [X/D] *)
Definition cmp_scaled (s t X D : Z) : comparison :=
  if 0 <=? t then s * D ?= X * 10 ^ t else s * 10 ^ (- t) * D ?= X.

Definition in_interval (closed : bool) (LO HI D s t : Z) : bool :=
  match cmp_scaled s t LO D, cmp_scaled s t HI D with
  | Gt, Lt => true
  | Eq, Lt | Gt, Eq => closed
  | _, _ => false
  end.

Definition closer_low (lo hi t X D : Z) : bool :=
  let '(a, b) :=
    if 0 <=? t then (X * 10 ^ t - lo * D, hi * D - X * 10 ^ t)
    else (X - lo * 10 ^ (- t) * D, hi * 10 ^ (- t) * D - X) in
  (a <? b) || ((a =? b) && Z.even lo).

Fixpoint shortest (fuel : nat) (closed : bool) (LO X HI D n k : Z) : Z * Z :=
  match fuel with
  | O => (0, k)
  | S fuel' =>
      let t := k - n in
      let lo := if 0 <=? t then (X * 10 ^ t) / D else X / (D * 10 ^ (- t)) in
      let hi := lo + 1 in
      let oklo := in_interval closed LO HI D lo t in
      let okhi := in_interval closed LO HI D hi t in
      if oklo && okhi then ((if closer_low lo hi t X D then lo else hi), k)
      else if oklo then (lo, k)
      else if okhi then (hi, k)
      else shortest fuel' closed LO X HI D n (k + 1)
  end.

(** the digits [s], their number [k] and the decimal exponent [n] *)
Definition shortest_decimal (m : positive) (e : Z) : Z * Z * Z :=
  let b := (Zpos m =? 2 ^ 52) && (-1074 <? e) in
  let '(lo, x, hi, e') :=
    if b then (4 * Zpos m - 1, 4 * Zpos m, 4 * Zpos m + 2, e - 2)
    else (2 * Zpos m - 1, 2 * Zpos m, 2 * Zpos m + 1, e - 1) in
  let up := if 0 <=? e' then 2 ^ e' else 1 in
  let D := if 0 <=? e' then 1 else 2 ^ (- e') in
  let n := decimal_exponent 8 (x * up) D
             ((Z.log2 (x * up) - Z.log2 D) * 30103 / 100000) in
  let '(s, k) :=
    shortest 17 (Z.even (Zpos m)) (lo * up) (x * up) (hi * up) D n 1 in
  if s =? 10 ^ k then (10 ^ (k - 1), k, n + 1) else (s, k, n).

Fixpoint digits_string (k : nat) (s : Z) (acc : string) : string :=
  match k with
  | O => acc
  | S k' =>
      digits_string k' (s / 10)
        (String (ascii_of_nat (Z.to_nat (48 + s mod 10))) acc)
  end.

Fixpoint Z_string (fuel : nat) (s : Z) (acc : string) : string :=
  match fuel with
  | O => acc
  | S fuel' =>
      let acc' := String (ascii_of_nat (Z.to_nat (48 + s mod 10))) acc in
      if s <? 10 then acc' else Z_string fuel' (s / 10) acc'
  end.

Fixpoint zeros (n : nat) : string :=
  match n with
  | O => EmptyString
  | S n' => String "0" (zeros n')
  end.

Definition format_decimal (digits : string) (k n : Z) : string :=
  if (k <=? n) && (n <=? 21) then digits +:+ zeros (Z.to_nat (n - k))
  else if (0 <? n) && (n <=? 21) then
    String.substring 0 (Z.to_nat n) digits +:+ "."
      +:+ String.substring (Z.to_nat n) (Z.to_nat (k - n)) digits
  else if (-6 <? n) && (n <=? 0) then
    "0." +:+ zeros (Z.to_nat (- n)) +:+ digits
  else
    let e := n - 1 in
    let es := (if e <? 0 then "-" else "+") +:+ Z_string 5 (Z.abs e) "" in
    if k =? 1 then digits +:+ "e" +:+ es
    else String.substring 0 1 digits +:+ "."
           +:+ String.substring 1 (Z.to_nat (k - 1)) digits +:+ "e" +:+ es.

Definition Number_toString (x : float) : string :=
  match Prim2SF x with
  | S754_nan => "NaN"
  | S754_zero _ => "0"
  | S754_infinity s => if s then "-Infinity" else "Infinity"
  | S754_finite sg m e =>
      let '(s, k, n) := shortest_decimal m e in
      (if sg then "-" else "")
        +:+ format_decimal (digits_string (Z.to_nat k) s "") k n
  end.

(** [String(val)] *)
Definition String_ (val : option JsValue) : string :=
  match val with
  | None => "undefined"
  | Some JsNull => "null"
  | Some (JsBoolean b) => if b then "true" else "false"
  | Some (JsNumber x) => Number_toString x
  | Some (JsString s) => s
  end.

(** [val.toString()]: a TypeError ([None]) on [undefined] and [null]. *)
Definition toString (val : option JsValue) : option string :=
  match val with
  | None | Some JsNull => None
  | Some _ => Some (String_ val)
  end.

(** [Math.round(x)]: the integer closest to [x], ties towards +Infinity;
    a result of zero keeps the sign of [x]. *)
Definition Math_round (x : float) : float :=
  match Prim2SF x with
  | S754_finite s m e =>
      if 0 <=? e then x
      else
        let r := (2 * (if s then Zneg m else Zpos m) + 2 ^ (- e))
                 / 2 ^ (1 - e) in
        if r =? 0 then (if s then neg_zero else zero) else Number_of_Z r
  | _ => x
  end.

(** ** Ordinary objects

    An object is the list of its own properties in insertion order.
    [Object.keys] lists the array-index keys first, in ascending numeric
    order, then the other keys in insertion order. The properties that
    every object inherits from [Object.prototype] are left out: a read of
    a name that is not an own property gives [undefined]. *)

Definition JsObject (A : Type) : Type := list (string * A).

Section Objects.
Context {A : Type}.

(** [o[k]] *)
Fixpoint get (o : JsObject A) (k : string) : option A :=
  match o with
  | [] => None
  | (k', v) :: o' => if String.eqb k' k then Some v else get o' k
  end.

(** [o[k] = v]: an existing property keeps its place. *)
Fixpoint set (o : JsObject A) (k : string) (v : A) : JsObject A :=
  match o with
  | [] => [(k, v)]
  | (k', v') :: o' =>
      if String.eqb k' k then (k', v) :: o' else (k', v') :: set o' k v
  end.

(** the own keys in insertion order *)
Definition own_keys (o : JsObject A) : list string := map fst o.
End Objects.

Definition index_of (k : string) : Z :=
  match array_index k with Some n => n | None => 0 end.



Fixpoint insert_index (k : string) (sorted : list string) : list string :=
  match sorted with
  | [] => [k]
  | k' :: rest =>
      if index_of k <=? index_of k' then k :: sorted
      else k' :: insert_index k rest
  end.

Definition sort_indices (ks : list string) : list string :=
  fold_right insert_index [] ks.

Definition order_keys (ks : list string) : list string :=
  sort_indices (List.filter is_array_index ks)
    ++ List.filter (fun k => negb (is_array_index k)) ks.

Definition Object_keys {A : Type} (o : JsObject A) : list string :=
  order_keys (own_keys o).

End JS.

(* ===================================================================== *)
(** * lodash                                                              *)
(* ===================================================================== *)

Module Lodash.
Import JS.

(** [_.groupBy(collection, property)] with a property name for iteratee:
    every element is appended to the array stored under the key
    [String(element[property])] of a fresh object, a new key being added
    after those already there. The name is read as one property, which is
    what lodash does for a name without [.] or [[], and for any name that
    the element has as a property. *)
Definition assign_group (property : string)
  (result : JsObject (list (JsObject JsValue))) (value : JsObject JsValue)
  : JsObject (list (JsObject JsValue)) :=
  let key := String_ (get value property) in
  match get result key with
  | Some items => set result key (items ++ [value])
  | None => set result key [value]
  end.

Definition groupBy (collection : list (JsObject JsValue)) (property : string)
  : JsObject (list (JsObject JsValue)) :=
  fold_left (assign_group property) collection [].

(** [_.sumBy(array, iteratee)]: [0] on an empty array, otherwise the
    values added from left to right, starting from the first. *)
Definition sumBy {A : Type} (array : list A) (iteratee : A -> float) : float :=
  match
    fold_left
      (fun result item =>
         match result with
         | None => Some (iteratee item)
         | Some r => Some (r + iteratee item)%float
         end)
      array None
  with
  | Some r => r
  | None => zero
  end.

(** [_.intersection(...arrays)]: the values of the first array that every
    other array includes, each once, in the order of the first array. *)
Definition intersection (arrays : list (list string)) : list string :=
  match arrays with
  | [] => []
  | first :: others =>
      fold_left
        (fun result value =>
           if negb (includes result value)
              && forallb (fun other => includes other value) others
           then result ++ [value] else result)
        first []
  end.

End Lodash.

(* ===================================================================== *)
(** * src/lib/data.ts                                                     *)
(* ===================================================================== *)

Module Data.
Import JS Lodash.

(** A parsed row: column name to cell. *)
Definition DataRow : Type := JsObject JsValue.

Record Dataset : Type := {
  ds_id : string;
  ds_name : string;
  rows : list DataRow;
  columns : list string;
  numericColumns : list string;
  dateColumns : list string;
  textColumns : list string
}.

(** What [XLSX.read] and [sheet_to_json] make of the bytes of a file once
    the reader has loaded them: an exception, or the rows of the first
    sheet. *)
Inductive Workbook : Type :=
| Unreadable (message : string)
| FirstSheet (jsonData : list DataRow).

Record File : Type := {
  file_name : string;
  file_content : Workbook
}.

Inductive Promise (A : Type) : Type :=
| Resolved (a : A)
| Rejected (err : string).
Arguments Resolved {A} a.
Arguments Rejected {A} err.

(** The three arrays filled by the classification loop. *)
Record Buckets : Type := {
  b_numeric : list string;
  b_date : list string;
  b_text : list string
}.

Definition no_buckets : Buckets :=
  {| b_numeric := []; b_date := []; b_text := [] |}.

Inductive ColumnKind : Type := Numeric | Date | Text.

Definition push (kind : ColumnKind) (col : string) (b : Buckets) : Buckets :=
  match kind with
  | Numeric => {| b_numeric := b_numeric b ++ [col];
                  b_date := b_date b; b_text := b_text b |}
  | Date => {| b_numeric := b_numeric b;
               b_date := b_date b ++ [col]; b_text := b_text b |}
  | Text => {| b_numeric := b_numeric b;
               b_date := b_date b; b_text := b_text b ++ [col] |}
  end.

Section Ingestion.
(** [Date.parse] is left to the engine by ECMA-262 for all but the ISO
    format: the ingestion is stated for any such function. *)
Variable Date_parse : string -> float.

(** [!isNaN(Number(val)) && typeof val !== 'boolean'] *)
Definition isNum (val : option JsValue) : bool :=
  negb (isNaN (Number_ val)) && negb (typeof_boolean val).

(** [!isNaN(Date.parse(val)) &&
     (val.toString().includes('-') || val.toString().includes('/'))];
    [Rejected] when [val.toString()] throws. *)
Definition isDate (val : option JsValue) : Promise bool :=
  if negb (isNaN (Date_parse (String_ val))) then
    match toString val with
    | Some s => Resolved (includes_char s "-" || includes_char s "/")
    | None => Rejected "TypeError"
    end
  else Resolved false.

(** One turn of [columns.forEach]: both tests are evaluated, then the
    column is pushed on one of the three arrays. *)
Definition classify_column (sampleRow : DataRow) (col : string)
  : Promise ColumnKind :=
  let val := get sampleRow col in
  let isNum := isNum val in
  match isDate val with
  | Rejected err => Rejected err
  | Resolved isDate =>
      Resolved (if isNum then Numeric else if isDate then Date else Text)
  end.

Fixpoint classify_columns (sampleRow : DataRow) (cols : list string)
  (acc : Buckets) : Promise Buckets :=
  match cols with
  | [] => Resolved acc
  | col :: cols' =>
      match classify_column sampleRow col with
      | Rejected err => Rejected err
      | Resolved kind => classify_columns sampleRow cols' (push kind col acc)
      end
  end.

(** [processExcelFile(file)]; [fresh_id] is the identifier drawn from
    [Math.random] and [Date.now]. *)
Definition processExcelFile (fresh_id : string) (file : File)
  : Promise Dataset :=
  match file_content file with
  | Unreadable message => Rejected message
  | FirstSheet jsonData =>
      match jsonData with
      | [] => Rejected "Excel file is empty"
      | sampleRow :: _ =>
          let columns := Object_keys sampleRow in
          match classify_columns sampleRow columns no_buckets with
          | Rejected err => Rejected err
          | Resolved b =>
              Resolved
                {| ds_id := fresh_id;
                   ds_name := file_name file;
                   rows := jsonData;
                   columns := columns;
                   numericColumns := b_numeric b;
                   dateColumns := b_date b;
                   textColumns :=
                     if (0 <? length (b_text b))%nat
                     then b_text b else columns |}
          end
      end
  end.
End Ingestion.

Inductive Operation : Type := op_sum | op_count | op_avg.

Record ChartPoint : Type := {
  name : string;
  value : float
}.

(** [aggregateData(data, categoryCol, valueCol, operation)] *)
Definition aggregateData (data : list DataRow) (categoryCol valueCol : string)
  (operation : Operation) : list ChartPoint :=
  let grouped := groupBy data categoryCol in
  map
    (fun key =>
       let items := default [] (get grouped key) in
       let value :=
         match operation with
         | op_count => Number_of_nat (length items)
         | _ =>
             let sum :=
               sumBy items (fun item => or_zero (Number_ (get item valueCol))) in
             match operation with
             | op_avg => (sum / Number_of_nat (length items))%float
             | _ => sum
             end
         end in
       {| name := key;
          value := (Math_round (value * 100) / 100)%float |})
    (Object_keys grouped).

End Data.

(* ===================================================================== *)
(** * src/components/BoardGrid.tsx                                        *)
(* ===================================================================== *)

Module BoardGrid.
Import JS Lodash Data.

(** A selection mapping, column name to the selected strings. The order in
    which [Object.entries] lists it cannot be observed through [every]. *)
Abbreviation Selections := (gmap string (list string)).

(** The callback of [Object.entries(..).every(..)] in [getFilteredRows];
    [selectedVals] is an array, as the type of the mapping says, so
    [!selectedVals] is false. *)
Definition passes_entry (row : DataRow) (entry : string * list string) : bool :=
  let '(col, selectedVals) := entry in
  if (length selectedVals =? 0)%nat then true
  else match get row col with
       | None => true
       | Some v => includes selectedVals (String_ (Some v))
       end.

(** The callback of [ds.rows.filter(..)]. *)
Definition row_passes (slicers : Selections) (boardFilters : option Selections)
  (row : DataRow) : bool :=
  let passesGlobal := forallb (passes_entry row) (map_to_list slicers) in
  if negb passesGlobal then false
  else
    match boardFilters with
    | Some boardFilters =>
        let passesLocal :=
          forallb (passes_entry row) (map_to_list boardFilters) in
        if negb passesLocal then false else true
    | None => true
    end.

Definition getFilteredRows (datasets : list Dataset) (slicers : Selections)
  (boardFilters : option Selections) (datasetId : string) : list DataRow :=
  match List.find (fun d => String.eqb (ds_id d) datasetId) datasets with
  | None => []
  | Some ds => List.filter (row_passes slicers boardFilters) (rows ds)
  end.

End BoardGrid.

(* ===================================================================== *)
(** * src/App.tsx                                                         *)
(* ===================================================================== *)

Module App.
Import JS Lodash Data BoardGrid.

Record Layout : Type := {
  l_i : string;
  l_x : float;
  l_y : float;
  l_w : float;
  l_h : float;
  l_minW : option float;
  l_minH : option float
}.

Inductive ChartKind : Type := bar | line | pie | timeline | radar.

(** The configuration object the modal builds for a widget. *)
Record WidgetConfig : Type := {
  showLabels : bool;
  unit : string;
  categoryCol : option string;
  valueCol : option string;
  dateCol : option string;
  eventCol : option string
}.

Record WidgetItem : Type := {
  w_i : string;
  datasetId : string;
  w_type : ChartKind;
  title : string;
  config : WidgetConfig
}.

Record Board : Type := {
  board_id : string;
  board_name : string;
  layout : list Layout;
  widgets : list WidgetItem;
  filters : option Selections;
  createdAt : float
}.

(** The callback held by the confirmation dialog, with the values of the
    render it was created in. *)
Inductive ConfirmAction : Type :=
| NoAction
| RemoveDataset (datasets : list Dataset) (activeDatasetId : option string)
    (id : string).

Record ConfirmState : Type := {
  isOpen : bool;
  onConfirm : ConfirmAction
}.

(** The part of the state of [App] that the data logic reads and writes,
    and the alerts shown so far. *)
Record AppState : Type := {
  datasets : list Dataset;
  activeDatasetId : option string;
  boards : list Board;
  confirmState : ConfirmState;
  alerts : list string
}.

(** [commonColumns] *)
Definition commonColumns (datasets : list Dataset) : list string :=
  match datasets with
  | [] => []
  | [d] => columns d
  | _ => intersection (map columns datasets)
  end.

(** The message of the alert raised by a failed import. *)
Definition parse_failure_alert : string :=
  "文件解析失败，请检查是否为有效的 Excel 文件".

Section FileImport.
Variable Date_parse : string -> float.

(** [handleFileChange(e)], from the moment the promise of
    [processExcelFile] settles; [files] is [e.target.files]. The error is
    also written to the console, and the file input is cleared in either
    case: neither is part of the state. *)
Definition handleFileChange (fresh_id : string) (files : list File)
  (st : AppState) : AppState :=
  match files with
  | [] => st
  | file :: _ =>
      match processExcelFile Date_parse fresh_id file with
      | Resolved newData =>
          {| datasets := datasets st ++ [newData];
             activeDatasetId := Some (ds_id newData);
             boards := boards st;
             confirmState := confirmState st;
             alerts := alerts st |}
      | Rejected _ =>
          {| datasets := datasets st;
             activeDatasetId := activeDatasetId st;
             boards := boards st;
             confirmState := confirmState st;
             alerts := alerts st ++ [parse_failure_alert] |}
      end
  end.
End FileImport.

(** [removeDataset(id, e)]: asks for confirmation. *)
Definition removeDataset (id : string) (st : AppState) : AppState :=
  {| datasets := datasets st;
     activeDatasetId := activeDatasetId st;
     boards := boards st;
     confirmState :=
       {| isOpen := true;
          onConfirm := RemoveDataset (datasets st) (activeDatasetId st) id |};
     alerts := alerts st |}.

(** The update passed to [setBoards] by the confirmed deletion. *)
Definition without_dataset (id : string) (board : Board) : Board :=
  let remainingWidgets :=
    List.filter (fun w => negb (String.eqb (datasetId w) id)) (widgets board) in
  let remainingWidgetIds := map w_i remainingWidgets in
  let remainingLayout :=
    List.filter (fun l => includes remainingWidgetIds (l_i l)) (layout board) in
  {| board_id := board_id board;
     board_name := board_name board;
     layout := remainingLayout;
     widgets := remainingWidgets;
     filters := filters board;
     createdAt := createdAt board |}.

Definition run_confirm (action : ConfirmAction) (st : AppState) : AppState :=
  match action with
  | NoAction => st
  | RemoveDataset datasets0 activeDatasetId0 id =>
      let newDatasets :=
        List.filter (fun d => negb (String.eqb (ds_id d) id)) datasets0 in
      {| datasets := newDatasets;
         activeDatasetId :=
           if bool_decide (activeDatasetId0 = Some id)
           then match newDatasets with
                | d :: _ => Some (ds_id d)
                | [] => None
                end
           else activeDatasetId st;
         boards := map (without_dataset id) (boards st);
         confirmState := confirmState st;
         alerts := alerts st |}
  end.

(** [handleConfirmAction()] *)
Definition handleConfirmAction (st : AppState) : AppState :=
  let st' := run_confirm (onConfirm (confirmState st)) st in
  {| datasets := datasets st';
     activeDatasetId := activeDatasetId st';
     boards := boards st';
     confirmState :=
       {| isOpen := false; onConfirm := onConfirm (confirmState st') |};
     alerts := alerts st' |}.

(** The [columns] field of [getBoardSpecificData(board)]. *)
Definition getBoardSpecificData (datasets : list Dataset) (board : Board)
  : list string :=
  let usedDatasetIds := map datasetId (widgets board) in
  let usedDatasets :=
    List.filter (fun d => includes usedDatasetIds (ds_id d)) datasets in
  if (length usedDatasets =? 0)%nat then []
  else
    let datasetColumns := map columns usedDatasets in
    intersection datasetColumns.

End App.

(* ===================================================================== *)
(** * The wording of the specification                                    *)
(* ===================================================================== *)

Module Spec.
Import JS Lodash Data BoardGrid App.


(** Column classification, in the words of the specification: numeric when
    the value coerces to a finite number and is not a boolean; else date
    when it parses as a date and its string form has a [-] or a [/];
    else text. *)
Definition kind_as_stated (Date_parse : string -> float)
  (val : option JsValue) : ColumnKind :=
  if is_finite (Number_ val) && negb (typeof_boolean val) then Numeric
  else if negb (is_nan (Date_parse (String_ val)))
          && (includes_char (String_ val) "-" || includes_char (String_ val) "/")
  then Date
  else Text.

(** The same rule with "coerces to a number other than NaN" in place of
    "coerces to a finite number". *)
Definition kind (Date_parse : string -> float)
  (val : option JsValue) : ColumnKind :=
  if negb (is_nan (Number_ val)) && negb (typeof_boolean val) then Numeric
  else if negb (is_nan (Date_parse (String_ val)))
          && (includes_char (String_ val) "-" || includes_char (String_ val) "/")
  then Date
  else Text.

Definition is_kind (k k' : ColumnKind) : bool :=
  match k, k' with
  | Numeric, Numeric | Date, Date | Text, Text => true
  | _, _ => false
  end.

(** The columns of a list that a rule puts in a given kind. *)
Definition of_kind (rule : option JsValue -> ColumnKind) (sampleRow : DataRow)
  (k : ColumnKind) (cols : list string) : list string :=
  List.filter (fun col => is_kind k (rule (get sampleRow col))) cols.

(** The classification claim as the specification words it, for a sheet
    whose import succeeds. *)
Definition classification_as_stated : Prop :=
  forall (Date_parse : string -> float) (fresh_id : string) (file : File)
         (sampleRow : DataRow) (rest : list DataRow) (ds : Dataset),
    file_content file = FirstSheet (sampleRow :: rest) ->
    processExcelFile Date_parse fresh_id file = Resolved ds ->
    forall col : string,
      In col (columns ds) ->
      (In col (numericColumns ds)
       <-> kind_as_stated Date_parse (get sampleRow col) = Numeric)
      /\ (In col (dateColumns ds)
          <-> kind_as_stated Date_parse (get sampleRow col) = Date).

(** A layout entry shares its id with a widget of the deleted dataset. *)
Definition shares_removed_widget (id : string) (board : Board) (l : Layout)
  : bool :=
  existsb
    (fun w => String.eqb (datasetId w) id && String.eqb (w_i w) (l_i l))
    (widgets board).

(** What deleting the dataset [id] does to one board, in the words of the
    specification: the widgets of that dataset go, with the layout entries
    that share their ids; everything else stays. *)
Definition cascaded (id : string) (board board' : Board) : Prop :=
  board_id board' = board_id board
  /\ board_name board' = board_name board
  /\ filters board' = filters board
  /\ createdAt board' = createdAt board
  /\ widgets board'
     = List.filter (fun w => negb (String.eqb (datasetId w) id)) (widgets board)
  /\ layout board'
     = List.filter (fun l => negb (shares_removed_widget id board l))
         (layout board).

(** The deletion claim as the specification words it, the layout ids of
    each board being the widget ids, entry by entry. *)
Definition deletion_cascade_as_stated : Prop :=
  forall (id : string) (st : AppState),
    (forall board : Board,
        In board (boards st) ->
        map l_i (layout board) = map w_i (widgets board)) ->
    Forall2 (cascaded id) (boards st)
      (boards (handleConfirmAction (removeDataset id st))).

(** The stringified category value of a row. *)
Definition category (categoryCol : string) (row : DataRow) : string :=
  String_ (get row categoryCol).

(** The group of a category value: the rows that have it, in their order. *)
Definition group (data : list DataRow) (categoryCol key : string)
  : list DataRow :=
  List.filter (fun row => String.eqb (category categoryCol row) key) data.

(** The values of a list without the later repetitions. *)
Fixpoint first_occurrences (l : list string) : list string :=
  match l with
  | [] => []
  | x :: l' =>
      x :: List.filter (fun y => negb (String.eqb y x)) (first_occurrences l')
  end.

(** The numeric coercion of the value column, a value that is not a number
    counting for [0]. *)
Definition coerce (valueCol : string) (row : DataRow) : float :=
  or_zero (Number_ (get row valueCol)).

(** The sum of a list of numbers, added in their order. *)
Definition sum (l : list float) : float :=
  match l with
  | [] => zero
  | x :: l' => fold_left PrimFloat.add l' x
  end.

(** The aggregate of a group: its size, the sum of its values, or the sum
    divided by the size. *)
Definition aggregate (operation : Operation) (valueCol : string)
  (items : list DataRow) : float :=
  match operation with
  | op_count => Number_of_nat (length items)
  | op_sum => sum (map (coerce valueCol) items)
  | op_avg =>
      (sum (map (coerce valueCol) items) / Number_of_nat (length items))%float
  end.

(** [Math.round(v * 100) / 100] *)
Definition round2 (v : float) : float := (Math_round (v * 100) / 100)%float.

(** Half-up rounding to two decimals on the decimal representation: the
    digits [s * 10^(n-k)] that [String(v)] prints are rounded to the
    hundredth, a tie going up, and read back as a Number. *)
Definition round_half_up_decimal (v : float) : float :=
  match Prim2SF v with
  | S754_finite sg m e =>
      let '(s, k, n) := shortest_decimal m e in
      let t := (n - k + 2)%Z in
      let signed := if sg then (- s)%Z else s in
      let hundredths :=
        if (0 <=? t)%Z then (signed * 10 ^ t)%Z
        else ((2 * signed + 10 ^ (- t)) / (2 * 10 ^ (- t)))%Z in
      match hundredths with
      | Z0 => zero
      | Zpos p => Number_of_ratio false p 100
      | Zneg p => Number_of_ratio true p 100
      end
  | _ => v
  end.



End Spec.

(* ===================================================================== *)
(** * Sample data                                                         *)
(* ===================================================================== *)

Import JS Lodash Data BoardGrid App.

Definition example_row (category : string) (amount : JsValue) : DataRow :=
  [("category", JsString category); ("amount", amount)].

Definition example_dataset : Dataset :=
  {| ds_id := "d1";
     ds_name := "sales.xlsx";
     rows := [example_row "A" (JsString "10"); example_row "B" (JsString "20")];
     columns := ["category"; "amount"];
     numericColumns := ["amount"];
     dateColumns := [];
     textColumns := ["category"] |}.

(** A sheet whose only cell is the text [Infinity]. *)
Definition infinity_file : File :=
  {| file_name := "inf.xlsx";
     file_content := FirstSheet [[("n", JsString "Infinity")]] |}.

(** The dataset that the import of [infinity_file] resolves to. *)
Definition infinity_dataset : Dataset :=
  {| ds_id := "id"; ds_name := "inf.xlsx";
     rows := [[("n", JsString "Infinity")]];
     columns := ["n"]; numericColumns := ["n"]; dateColumns := [];
     textColumns := ["n"] |}.

(** A workbook that cannot be read, and one whose first sheet has no row. *)
Definition corrupt_file : File :=
  {| file_name := "corrupt.xlsx"; file_content := Unreadable "Unsupported file" |}.

Definition empty_file : File :=
  {| file_name := "empty.xlsx"; file_content := FirstSheet [] |}.

Definition no_date (s : string) : float := nan.

(** The state [App] starts in, with its default board. *)
Definition initial_state : AppState :=
  {| datasets := [];
     activeDatasetId := None;
     boards :=
       [{| board_id := "default"; board_name := "默认看板"; layout := [];
           widgets := []; filters := Some ∅; createdAt := 0 |}];
     confirmState := {| isOpen := false; onConfirm := NoAction |};
     alerts := [] |}.


Definition dataset_with_columns (id : string) (cols : list string) : Dataset :=
  {| ds_id := id; ds_name := id; rows := []; columns := cols;
     numericColumns := []; dateColumns := []; textColumns := cols |}.

Definition example_config : WidgetConfig :=
  {| showLabels := false; unit := ""; categoryCol := Some "category";
     valueCol := Some "amount"; dateCol := None; eventCol := None |}.

Definition example_widget (i ds : string) : WidgetItem :=
  {| w_i := i; datasetId := ds; w_type := bar; title := "chart";
     config := example_config |}.

Definition example_layout (i : string) : Layout :=
  {| l_i := i; l_x := 0; l_y := infinity; l_w := 4; l_h := 6;
     l_minW := Some 2%float; l_minH := Some 3%float |}.

Definition example_board (ws : list WidgetItem) (ls : list Layout) : Board :=
  {| board_id := "default"; board_name := "board"; layout := ls;
     widgets := ws; filters := Some ∅; createdAt := 0 |}.

Definition state_with_board (board : Board) : AppState :=
  {| datasets := [dataset_with_columns "X" ["A"]; dataset_with_columns "Y" ["A"]];
     activeDatasetId := Some "X";
     boards := [board];
     confirmState := {| isOpen := false; onConfirm := NoAction |};
     alerts := [] |}.

(** Two widgets with one id, on different datasets. *)
Definition clashing_board : Board :=
  example_board [example_widget "a" "X"; example_widget "a" "Y"]
                [example_layout "a"; example_layout "a"].

Definition tidy_board : Board :=
  example_board [example_widget "a" "X"; example_widget "b" "Y"]
                [example_layout "b"; example_layout "a"].


(* ===================================================================== *)
(** * More JavaScript and lodash primitives                               *)
(* ===================================================================== *)

Module Builtins.
Import JS Lodash.

(** A string or [null] used as a condition: [null] and [""] are falsy. *)
Definition truthy (s : option string) : bool :=
  match s with
  | Some s => negb (String.eqb s "")
  | None => false
  end.

(** [s.trim()]: the white space of [skip_ws] is dropped at both ends. *)
Fixpoint trim_end (s : string) : string :=
  match s with
  | EmptyString => EmptyString
  | String c rest => if only_ws s then EmptyString else String c (trim_end rest)
  end.

Definition trim (s : string) : string := trim_end (skip_ws s).

(** The order of strings by UTF-16 code units, which is the order of
    [Array.prototype.sort] without a comparator, read on the UTF-8 bytes:
    the bytes compare as they are, except that the lead bytes [0xEE] and
    [0xEF] (U+E000 to U+FFFF) rank above every other byte, so after the
    lead bytes of the characters beyond U+FFFF, whose code units are
    surrogates. *)
Definition unit_rank (c : ascii) : nat :=
  let n := nat_of_ascii c in
  if ((n =? 238) || (n =? 239))%nat then (n + 18)%nat else n.

Fixpoint code_unit_ltb (a b : string) : bool :=
  match a, b with
  | EmptyString, EmptyString => false
  | EmptyString, String _ _ => true
  | String _ _, EmptyString => false
  | String x a', String y b' =>
      if (unit_rank x <? unit_rank y)%nat then true
      else if (unit_rank y <? unit_rank x)%nat then false
      else code_unit_ltb a' b'
  end.

Fixpoint sort_insert (x : string) (sorted : list string) : list string :=
  match sorted with
  | [] => [x]
  | y :: rest =>
      if code_unit_ltb y x then y :: sort_insert x rest else x :: sorted
  end.

(** [array.sort()] on an array of strings. *)
Definition sort (array : list string) : list string :=
  fold_right sort_insert [] array.



End Builtins.

(* ===================================================================== *)
(** * src/App.tsx: boards, widgets, views and slicers                     *)
(* ===================================================================== *)

Module AppView.
Import JS Lodash Data BoardGrid App Builtins.

Inductive ViewMode : Type := list_view | detail_view | split_view.

Inductive SplitLayout : Type := grid | horizontal | vertical.

(** The object handed to the widget modal as [initialConfig]: any of its
    properties may be missing. *)
Record InitialConfig : Type := {
  i_type : option ChartKind;
  i_title : option string;
  i_categoryCol : option string;
  i_valueCol : option string;
  i_dateCol : option string;
  i_eventCol : option string;
  i_showLabels : option bool;
  i_unit : option string
}.

(** The object the modal passes to [onAdd]: [type], [title] and the
    properties kept in the [config] of the widget. A widget stores the
    whole object; its [type] and [title] are always those of the widget,
    being written together. *)
Record ConfigObject : Type := {
  c_type : ChartKind;
  c_title : string;
  c_config : WidgetConfig
}.

(** The state of [App] besides [AppState]. *)
Record ViewState : Type := {
  viewMode : ViewMode;
  activeBoardId : option string;
  selectedBoardIds : list string;
  splitLayout : SplitLayout;
  slicers : Selections;
  isDetailFilterOpen : bool;
  isConfigOpen : bool;
  initialWidgetConfig : option InitialConfig;
  editingWidgetId : option string;
  operatingBoardId : option string;
  editingBoardId : option string;
  tempBoardName : string
}.

(** [setBoards(update)] and [alert(message)] *)
Definition setBoards (update : list Board -> list Board) (st : AppState)
  : AppState :=
  {| datasets := datasets st;
     activeDatasetId := activeDatasetId st;
     boards := update (boards st);
     confirmState := confirmState st;
     alerts := alerts st |}.

Definition setActiveDatasetId (id : option string) (st : AppState) : AppState :=
  {| datasets := datasets st;
     activeDatasetId := id;
     boards := boards st;
     confirmState := confirmState st;
     alerts := alerts st |}.


(** [activeDataset] *)
Definition activeDataset (st : AppState) : option Dataset :=
  match activeDatasetId st with
  | Some id => List.find (fun d => String.eqb (ds_id d) id) (datasets st)
  | None => None
  end.

(** ** Boards *)

(** [handleAddBoard()]; [fresh_id] is drawn by [generateId], [now] is
    [Date.now()]. *)
Definition handleAddBoard (fresh_id : string) (now : float) (st : AppState)
  : AppState :=
  let newBoard :=
    {| board_id := fresh_id;
       board_name :=
         "看板 " +:+ Number_toString (Number_of_nat (length (boards st)) + 1)%float;
       layout := [];
       widgets := [];
       filters := Some ∅;
       createdAt := now |} in
  setBoards (fun prev => prev ++ [newBoard]) st.

(** The callback that [handleDeleteBoard(boardId)] hands to the
    confirmation dialog; [activeBoardId0] is the [activeBoardId] of the
    render it was created in. *)
Definition deleteBoard_onConfirm (activeBoardId0 : option string)
  (boardId : string) (st : AppState) (v : ViewState) : AppState * ViewState :=
  (setBoards
     (fun prev => List.filter (fun b => negb (String.eqb (board_id b) boardId)) prev)
     st,
   {| viewMode :=
        if bool_decide (activeBoardId0 = Some boardId)
        then list_view else viewMode v;
      activeBoardId :=
        if bool_decide (activeBoardId0 = Some boardId)
        then None else activeBoardId v;
      selectedBoardIds :=
        List.filter (fun id => negb (String.eqb id boardId)) (selectedBoardIds v);
      splitLayout := splitLayout v;
      slicers := slicers v;
      isDetailFilterOpen := isDetailFilterOpen v;
      isConfigOpen := isConfigOpen v;
      initialWidgetConfig := initialWidgetConfig v;
      editingWidgetId := editingWidgetId v;
      operatingBoardId := operatingBoardId v;
      editingBoardId := editingBoardId v;
      tempBoardName := tempBoardName v |}).



(** [toggleBoardSelection(boardId)], on [selectedBoardIds]. *)
Definition toggleBoardSelection (boardId : string) (prev : list string)
  : list string :=
  if includes prev boardId
  then List.filter (fun id => negb (String.eqb id boardId)) prev
  else prev ++ [boardId].

(** [splitBoards] *)
Definition splitBoards (boards : list Board) (selectedBoardIds : list string)
  : list Board :=
  List.filter (fun b => includes selectedBoardIds (board_id b)) boards.

(** ** Widgets *)

Definition with_widgets_layout (ws : list WidgetItem) (ls : list Layout)
  (b : Board) : Board :=
  {| board_id := board_id b;
     board_name := board_name b;
     layout := ls;
     widgets := ws;
     filters := filters b;
     createdAt := createdAt b |}.

Definition in_board (boardId : string) (update : Board -> Board)
  (prev : list Board) : list Board :=
  map (fun b => if negb (String.eqb (board_id b) boardId) then b else update b)
      prev.

(** The layout entry of a new widget. [(length || 0 * 4) % 12] is the
    number of widgets of the board modulo 12, [0 * 4] being [0]; it is [0]
    when no board has the id. *)
Definition newLayoutItem (id : string) (kind : ChartKind)
  (targetBoard : option Board) : Layout :=
  {| l_i := id;
     l_x := Number_of_nat
              (match targetBoard with
               | Some b => length (widgets b)
               | None => 0
               end mod 12);
     l_y := infinity;
     l_w := match kind with timeline => 3 | _ => 4 end;
     l_h := match kind with timeline => 8 | _ => 6 end;
     l_minW := Some 2%float;
     l_minH := Some 3%float |}.

Definition edited (config : ConfigObject) (w : WidgetItem) : WidgetItem :=
  {| w_i := w_i w;
     datasetId := datasetId w;
     w_type := c_type config;
     title := c_title config;
     config := c_config config |}.

(** [handleSaveWidget(config)]: the new boards and the new
    [editingWidgetId] and [operatingBoardId]. *)
Definition handleSaveWidget (fresh_id : string) (config : ConfigObject)
  (st : AppState) (v : ViewState)
  : AppState * (option string * option string) :=
  let unchanged := (st, (editingWidgetId v, operatingBoardId v)) in
  let targetBoardId :=
    if truthy (editingWidgetId v) then operatingBoardId v else activeBoardId v in
  if negb (truthy targetBoardId) then unchanged
  else
    let target := default "" targetBoardId in
    if truthy (editingWidgetId v) then
      let editing := default "" (editingWidgetId v) in
      (setBoards
         (in_board target
            (fun b =>
               with_widgets_layout
                 (map (fun w =>
                         if String.eqb (w_i w) editing then edited config w else w)
                      (widgets b))
                 (layout b) b))
         st,
       (None, None))
    else if negb (truthy (activeDatasetId st)) then unchanged
    else
      let id := fresh_id in
      let newWidget :=
        {| w_i := id;
           datasetId := default "" (activeDatasetId st);
           w_type := c_type config;
           title := c_title config;
           config := c_config config |} in
      let targetBoard :=
        List.find (fun b => String.eqb (board_id b) target) (boards st) in
      (setBoards
         (in_board target
            (fun b =>
               with_widgets_layout
                 (widgets b ++ [newWidget])
                 (layout b ++ [newLayoutItem id (c_type config) targetBoard])
                 b))
         st,
       (editingWidgetId v, operatingBoardId v)).

(** [handleRemoveWidget(boardId, widgetId)] *)
Definition handleRemoveWidget (boardId widgetId : string) (st : AppState)
  : AppState :=
  setBoards
    (in_board boardId
       (fun b =>
          with_widgets_layout
            (List.filter (fun w => negb (String.eqb (w_i w) widgetId)) (widgets b))
            (List.filter (fun l => negb (String.eqb (l_i l) widgetId)) (layout b))
            b))
    st.






(** ** Slicers *)

(** The new selection of a column after a click on [val]. *)
Definition toggled (currentVals : list string) (val : string) : list string :=
  if includes currentVals val
  then List.filter (fun v => negb (String.eqb v val)) currentVals
  else currentVals ++ [val].






(** The datasets that [getBoardSpecificData(board)] works on, and its
    [getValues(col)]. *)
Definition usedDatasets (datasets : list Dataset) (board : Board) : list Dataset :=
  List.filter
    (fun d => includes (map datasetId (widgets board)) (ds_id d)) datasets.


End AppView.

(* ===================================================================== *)
(** * src/components/WidgetConfigModal.tsx                                *)
(* ===================================================================== *)

Module Modal.
Import JS Lodash Data BoardGrid App Builtins AppView.

(** The fields of the form. *)
Record Form : Type := {
  f_type : ChartKind;
  f_title : string;
  f_categoryCol : string;
  f_valueCol : string;
  f_dateCol : string;
  f_eventCol : string;
  f_showLabels : bool;
  f_unit : string
}.

(** [x || ''] on a string that may be missing. *)
Definition or_empty (x : option string) : string :=
  match x with
  | Some s => s
  | None => ""
  end.

(** The form when the modal opens (the effect on [isOpen] and
    [initialConfig]). *)
Definition opened (initialConfig : option InitialConfig) : Form :=
  match initialConfig with
  | Some c =>
      {| f_type := default bar (i_type c);
         f_title := or_empty (i_title c);
         f_categoryCol := or_empty (i_categoryCol c);
         f_valueCol := or_empty (i_valueCol c);
         f_dateCol := or_empty (i_dateCol c);
         f_eventCol := or_empty (i_eventCol c);
         f_showLabels := default false (i_showLabels c);
         f_unit := or_empty (i_unit c) |}
  | None =>
      {| f_type := bar; f_title := ""; f_categoryCol := ""; f_valueCol := "";
         f_dateCol := ""; f_eventCol := ""; f_showLabels := false;
         f_unit := "" |}
  end.

Definition is_timeline (k : ChartKind) : bool :=
  match k with
  | timeline => true
  | _ => false
  end.

(** [handleSubmit()]: an alert, or the object passed to [onAdd]. *)
Definition handleSubmit (form : Form) : string + ConfigObject :=
  if String.eqb (f_title form) "" then inl "请输入标题"
  else if is_timeline (f_type form) then
    if String.eqb (f_dateCol form) "" || String.eqb (f_eventCol form) ""
    then inl "请选择时间列和事件列"
    else inr {| c_type := f_type form;
                c_title := f_title form;
                c_config :=
                  {| showLabels := f_showLabels form;
                     unit := f_unit form;
                     categoryCol := None;
                     valueCol := None;
                     dateCol := Some (f_dateCol form);
                     eventCol := Some (f_eventCol form) |} |}
  else
    if String.eqb (f_categoryCol form) "" || String.eqb (f_valueCol form) ""
    then inl "请选择分类列和数值列"
    else inr {| c_type := f_type form;
                c_title := f_title form;
                c_config :=
                  {| showLabels := f_showLabels form;
                     unit := f_unit form;
                     categoryCol := Some (f_categoryCol form);
                     valueCol := Some (f_valueCol form);
                     dateCol := None;
                     eventCol := None |} |}.

(** The [initialConfig] that [handleEditWidget(boardId, widget)] sets:
    [{type, title, ...widget.config}]. *)
Definition initial_of_widget (w : WidgetItem) : InitialConfig :=
  {| i_type := Some (w_type w);
     i_title := Some (title w);
     i_categoryCol := categoryCol (config w);
     i_valueCol := valueCol (config w);
     i_dateCol := dateCol (config w);
     i_eventCol := eventCol (config w);
     i_showLabels := Some (showLabels (config w));
     i_unit := Some (unit (config w)) |}.

(** [handleEditWidget(boardId, widget)] *)
Definition handleEditWidget (boardId : string) (widget : WidgetItem)
  (st : AppState) (v : ViewState) : AppState * ViewState :=
  (setActiveDatasetId (Some (datasetId widget)) st,
   {| viewMode := viewMode v;
      activeBoardId := activeBoardId v;
      selectedBoardIds := selectedBoardIds v;
      splitLayout := splitLayout v;
      slicers := slicers v;
      isDetailFilterOpen := isDetailFilterOpen v;
      isConfigOpen := true;
      initialWidgetConfig := Some (initial_of_widget widget);
      editingWidgetId := Some (w_i widget);
      operatingBoardId := Some boardId;
      editingBoardId := editingBoardId v;
      tempBoardName := tempBoardName v |}).

End Modal.

(* ===================================================================== *)
(** * src/components/BoardGrid.tsx: what a board shows                    *)
(* ===================================================================== *)

Module Render.
Import JS Lodash Data BoardGrid App Builtins.

(** What a widget of the grid shows. *)
Inductive WidgetView : Type :=
| DatasetDeleted
| TimelineView (data : list DataRow)
| ChartView (chartData : list ChartPoint).

(** [aggregateData(rows, w.config.categoryCol, w.config.valueCol, 'sum')]
    when a column name may be [undefined]: [item[undefined]] reads the
    property ["undefined"], and [_.groupBy] without iteratee puts every
    row under the key of the row itself, ["[object Object]"]. *)
Definition chart_data (rows : list DataRow) (categoryCol valueCol : option string)
  : list ChartPoint :=
  let valueCol := default "undefined" valueCol in
  match categoryCol with
  | Some categoryCol => aggregateData rows categoryCol valueCol op_sum
  | None =>
      match rows with
      | [] => []
      | _ =>
          [{| name := "[object Object]";
              value :=
                (Math_round
                   (sumBy rows (fun item => or_zero (Number_ (get item valueCol)))
                    * 100) / 100)%float |}]
      end
  end.

(** The body of [board.widgets.map(w => ..)]. *)
Definition widget_view (datasets : list Dataset) (slicers : Selections)
  (boardFilters : option Selections) (w : WidgetItem) : WidgetView :=
  match List.find (fun d => String.eqb (ds_id d) (datasetId w)) datasets with
  | None => DatasetDeleted
  | Some _ =>
      let currentFilteredRows :=
        getFilteredRows datasets slicers boardFilters (datasetId w) in
      match w_type w with
      | timeline => TimelineView currentFilteredRows
      | _ =>
          ChartView
            (chart_data currentFilteredRows
               (categoryCol (config w)) (valueCol (config w)))
      end
  end.

(** What [BoardGrid] shows: [None] for the notice of an empty board,
    otherwise one view per widget, keyed by the widget id. [App] passes
    [board.filters] for [boardFilters]. *)
Definition board_view (board : Board) (datasets : list Dataset)
  (slicers : Selections) (boardFilters : option Selections)
  : option (list (string * WidgetView)) :=
  if (length (widgets board) =? 0)%nat then None
  else
    Some (map (fun w => (w_i w, widget_view datasets slicers boardFilters w))
              (widgets board)).

End Render.

(* ===================================================================== *)
(** * What the operations of [App] keep                                   *)
(* ===================================================================== *)

Module Invariants.
Import JS Lodash Data BoardGrid App Builtins AppView Modal.



(** A widget as the modal makes them: a title, and the two columns of its
    kind and no others. *)
Definition bound (col : option string) : Prop :=
  exists name, col = Some name /\ name <> "".

Definition widget_shaped (w : WidgetItem) : Prop :=
  title w <> ""
  /\ if is_timeline (w_type w)
     then categoryCol (config w) = None /\ valueCol (config w) = None
          /\ bound (dateCol (config w)) /\ bound (eventCol (config w))
     else bound (categoryCol (config w)) /\ bound (valueCol (config w))
          /\ dateCol (config w) = None /\ eventCol (config w) = None.









(** The boards named by the view exist. *)
Definition view_consistent (boards : list Board) (v : ViewState) : Prop :=
  (forall id, In id (selectedBoardIds v) ->
              exists b, In b boards /\ board_id b = id)
  /\ (forall id, activeBoardId v = Some id ->
                 exists b, In b boards /\ board_id b = id).



End Invariants.

(* ===================================================================== *)
(** * More sample data                                                    *)
(* ===================================================================== *)

Import JS Lodash Data BoardGrid App Builtins AppView Modal Render.

Definition list_of_boards : ViewState :=
  {| viewMode := list_view;
     activeBoardId := None;
     selectedBoardIds := [];
     splitLayout := grid;
     slicers := ∅;
     isDetailFilterOpen := false;
     isConfigOpen := false;
     initialWidgetConfig := None;
     editingWidgetId := None;
     operatingBoardId := None;
     editingBoardId := None;
     tempBoardName := "" |}.

(** The default board shown alone, and selected for the split view. *)
Definition default_board_open : ViewState :=
  {| viewMode := detail_view;
     activeBoardId := Some "default";
     selectedBoardIds := ["default"];
     splitLayout := grid;
     slicers := ∅;
     isDetailFilterOpen := false;
     isConfigOpen := false;
     initialWidgetConfig := None;
     editingWidgetId := None;
     operatingBoardId := None;
     editingBoardId := None;
     tempBoardName := "" |}.


(* ===================================================================== *)
(** * Properties                                                          *)
(* ===================================================================== *)

(** ** The primitives on known values *)

Example StringToNumber_decimal :
  StringToNumber "1.005" = 1.005%float
  /\ StringToNumber " 12 " = 12%float
  /\ StringToNumber "1e3" = 1000%float
  /\ StringToNumber ".5" = 0.5%float
  /\ StringToNumber "0x1F" = 31%float
  /\ StringToNumber "" = 0%float
  /\ StringToNumber "-Infinity" = neg_infinity
  /\ StringToNumber "9007199254740993" = 9007199254740992%float.
Proof. repeat split; vm_compute; reflexivity. Qed.

Example StringToNumber_not_a_number :
  map (fun s => is_nan (StringToNumber s)) ["abc"; "12px"; "1,000"; "."; "1e"; "0x"]
  = [true; true; true; true; true; true].
Proof. vm_compute. reflexivity. Qed.

Example Number_toString_examples :
  map Number_toString
    [1.005; 0.1; 0.1 + 0.2; 100; 1e21; 1e-7; 123456789012345680000; -2.5;
     5e-324; nan; neg_zero]%float
  = ["1.005"; "0.1"; "0.30000000000000004"; "100"; "1e+21"; "1e-7";
     "123456789012345680000"; "-2.5"; "5e-324"; "NaN"; "0"].
Proof. vm_compute. reflexivity. Qed.

Example Math_round_examples :
  map Math_round [0.5; 1.5; 2.5; -1.5; -2.5; 0.49999999999999994; 12.5; 2.4]%float
  = [1; 2; 3; -1; -2; 0; 13; 2]%float.
Proof. vm_compute. reflexivity. Qed.

Example Object_keys_example :
  Object_keys [("b", 1%nat); ("10", 2%nat); ("a", 3%nat); ("2", 4%nat); ("01", 5%nat)]
  = ["2"; "10"; "b"; "a"; "01"].
Proof. reflexivity. Qed.

Example round_half_up_decimal_examples :
  map Spec.round_half_up_decimal [0.125; 1.115; 2.5; 100; -0.125; 1.004; 1e300]%float
  = [0.13; 1.12; 2.5; 100; -0.12; 1; 1e300]%float
  /\ map Spec.round2 [0.125; 1.115; 2.5; 100; -0.125; 1.004; 1e300]%float
     = [0.13; 1.12; 2.5; 100; -0.12; 1; 1e300]%float.
Proof. split; vm_compute; reflexivity. Qed.

(** ** Lists and strings *)

Lemma includes_In (l : list string) (x : string) :
  includes l x = true <-> In x l.
Proof.
  unfold includes. rewrite existsb_exists. split.
  - intros (y & Hy & Heq). apply String.eqb_eq in Heq. now subst.
  - intros H. exists x. split; [assumption | apply String.eqb_refl].
Qed.

Lemma includes_not_In (l : list string) (x : string) :
  includes l x = false <-> ~ In x l.
Proof.
  rewrite <- includes_In. destruct (includes l x); split; congruence.
Qed.

Lemma filter_sublist {A : Type} (f : A -> bool) (l : list A) :
  List.filter f l `sublist_of` l.
Proof.
  induction l as [| a l IH]; simpl.
  - constructor.
  - destruct (f a); now constructor.
Qed.

Lemma find_none_iff {A : Type} (f : A -> bool) (l : list A) :
  List.find f l = None <-> forall x, In x l -> f x = false.
Proof.
  split.
  - apply find_none.
  - induction l as [| a l IH]; simpl; intros H; [reflexivity |].
    rewrite (H a (or_introl eq_refl)). apply IH. intros x Hx. apply H. now right.
Qed.

(** ** Filter evaluation *)





(** ** Filtering is a subsequence *)

(** C10: [getFilteredRows] returns a subsequence of the rows of the dataset
    found under the given id: rows of that dataset only, none repeated or
    changed, in their order; and the empty list when no dataset of the
    registry has the id. *)
Theorem filtered_rows_subsequence :
  forall (datasets : list Dataset) (slicers : Selections)
         (boardFilters : option Selections) (datasetId : string),
    (forall ds : Dataset,
        List.find (fun d => String.eqb (ds_id d) datasetId) datasets = Some ds ->
        getFilteredRows datasets slicers boardFilters datasetId
          `sublist_of` rows ds)
    /\ ((forall d : Dataset, In d datasets -> ds_id d <> datasetId) ->
        getFilteredRows datasets slicers boardFilters datasetId = []).
Proof.
  intros datasets slicers boardFilters datasetId. unfold getFilteredRows. split.
  - intros ds ->. apply filter_sublist.
  - intros Habsent.
    assert (Hnone : List.find (fun d => String.eqb (ds_id d) datasetId) datasets
                    = None).
    { apply find_none_iff. intros d Hd. apply String.eqb_neq. now apply Habsent. }
    now rewrite Hnone.
Qed.


Lemma filtered_rows_subsequence_witness :
  getFilteredRows [example_dataset] ∅ None "d1" `sublist_of` rows example_dataset
  /\ getFilteredRows [example_dataset] ∅ None "d2" = [].
Proof.
  split.
  - apply (proj1 (filtered_rows_subsequence [example_dataset] ∅ None "d1")
             example_dataset).
    reflexivity.
  - apply (proj2 (filtered_rows_subsequence [example_dataset] ∅ None "d2")).
    intros d [<- | []]. simpl. discriminate.
Defined.

(** ** Ingestion *)

Lemma is_kind_eq (k k' : ColumnKind) : Spec.is_kind k k' = true <-> k = k'.
Proof. destruct k, k'; simpl; split; congruence. Qed.

Lemma of_kind_In (rule : option JsValue -> ColumnKind) (sampleRow : DataRow)
  (k : ColumnKind) (cols : list string) (col : string) :
  In col (Spec.of_kind rule sampleRow k cols)
  <-> In col cols /\ rule (get sampleRow col) = k.
Proof.
  unfold Spec.of_kind. rewrite filter_In, is_kind_eq. intuition congruence.
Qed.

Section IngestionFacts.
Variable Date_parse : string -> float.

Lemma classify_column_kind (sampleRow : DataRow) (col : string) (k : ColumnKind) :
  classify_column Date_parse sampleRow col = Resolved k ->
  k = Spec.kind Date_parse (get sampleRow col).
Proof.
  unfold classify_column, isDate, isNum, isNaN, Spec.kind, toString.
  destruct (negb (is_nan (Date_parse (String_ (get sampleRow col))))) eqn:Hd.
  - destruct (get sampleRow col) as [[| b | x | s] |]; try discriminate;
      intros [= <-]; reflexivity.
  - intros [= <-]. reflexivity.
Qed.

Lemma classify_column_total (sampleRow : DataRow) (col : string) (v : JsValue) :
  get sampleRow col = Some v -> v <> JsNull ->
  classify_column Date_parse sampleRow col
  = Resolved (Spec.kind Date_parse (Some v)).
Proof.
  intros Hget Hv.
  destruct (classify_column Date_parse sampleRow col) as [k | err] eqn:Hk.
  - apply classify_column_kind in Hk. now rewrite Hk, Hget.
  - exfalso. revert Hk. unfold classify_column, isDate, toString. rewrite Hget.
    destruct v; [now elim Hv | | |];
      now destruct (negb (isNaN (Date_parse _))).
Qed.

Lemma classify_columns_buckets (sampleRow : DataRow) (cols : list string) :
  forall acc b : Buckets,
    classify_columns Date_parse sampleRow cols acc = Resolved b ->
    b_numeric b
    = b_numeric acc ++ Spec.of_kind (Spec.kind Date_parse) sampleRow Numeric cols
    /\ b_date b
       = b_date acc ++ Spec.of_kind (Spec.kind Date_parse) sampleRow Date cols
    /\ b_text b
       = b_text acc ++ Spec.of_kind (Spec.kind Date_parse) sampleRow Text cols.
Proof.
  induction cols as [| col cols IH]; intros acc b; simpl.
  - intros [= <-]. now rewrite !app_nil_r.
  - destruct (classify_column Date_parse sampleRow col) as [k | err] eqn:Hk;
      [| discriminate].
    apply classify_column_kind in Hk. intros Hb.
    destruct (IH _ _ Hb) as (Hn & Hd & Ht). rewrite Hn, Hd, Ht, <- Hk.
    destruct k; simpl; rewrite <- ?app_assoc; auto.
Qed.

Lemma processExcelFile_resolved (fresh_id : string) (file : File) (ds : Dataset) :
  processExcelFile Date_parse fresh_id file = Resolved ds ->
  exists (sampleRow : DataRow) (rest : list DataRow) (b : Buckets),
    file_content file = FirstSheet (sampleRow :: rest)
    /\ classify_columns Date_parse sampleRow (Object_keys sampleRow) no_buckets
       = Resolved b
    /\ ds = {| ds_id := fresh_id;
               ds_name := file_name file;
               rows := sampleRow :: rest;
               columns := Object_keys sampleRow;
               numericColumns := b_numeric b;
               dateColumns := b_date b;
               textColumns :=
                 if (0 <? length (b_text b))%nat
                 then b_text b else Object_keys sampleRow |}.
Proof.
  unfold processExcelFile.
  destruct (file_content file) as [msg | [| sampleRow rest]]; try discriminate.
  destruct (classify_columns _ _ _ _) as [b | err] eqn:Hb; [| discriminate].
  intros [= <-]. now exists sampleRow, rest, b.
Qed.

End IngestionFacts.

(** C4 (as amended): the classification is a function of the first row
    alone; a column is numeric exactly when its value coerces to a number
    other than NaN and is not a boolean, else a date when it parses as a
    date and its string form has a [-] or a [/], else text; each column
    meets exactly one of the three tests, and the three arrays keep the
    order of the columns. *)
Theorem column_classification :
  forall (Date_parse : string -> float) (fresh_id : string) (file : File)
         (ds : Dataset),
    processExcelFile Date_parse fresh_id file = Resolved ds ->
    exists (sampleRow : DataRow) (rest : list DataRow),
      file_content file = FirstSheet (sampleRow :: rest)
      /\ columns ds = Object_keys sampleRow
      /\ numericColumns ds
         = Spec.of_kind (Spec.kind Date_parse) sampleRow Numeric (columns ds)
      /\ dateColumns ds
         = Spec.of_kind (Spec.kind Date_parse) sampleRow Date (columns ds)
      /\ textColumns ds
         = match Spec.of_kind (Spec.kind Date_parse) sampleRow Text (columns ds) with
           | [] => columns ds
           | text => text
           end
      /\ (forall col : string,
            In col (columns ds) ->
            (In col (numericColumns ds)
             <-> is_nan (Number_ (get sampleRow col)) = false
                 /\ typeof_boolean (get sampleRow col) = false)
            /\ (In col (dateColumns ds)
                <-> ~ In col (numericColumns ds)
                    /\ is_nan (Date_parse (String_ (get sampleRow col))) = false
                    /\ (includes_char (String_ (get sampleRow col)) "-" = true
                        \/ includes_char (String_ (get sampleRow col)) "/" = true))
            /\ (Spec.kind Date_parse (get sampleRow col) = Text
                <-> ~ In col (numericColumns ds) /\ ~ In col (dateColumns ds)))
      /\ (forall (fresh_id' : string) (file' : File) (rest' : list DataRow),
            file_content file' = FirstSheet (sampleRow :: rest') ->
            exists ds' : Dataset,
              processExcelFile Date_parse fresh_id' file' = Resolved ds'
              /\ columns ds' = columns ds
              /\ numericColumns ds' = numericColumns ds
              /\ dateColumns ds' = dateColumns ds
              /\ textColumns ds' = textColumns ds).
Proof.
  intros Date_parse fresh_id file ds Hds.
  destruct (processExcelFile_resolved _ _ _ _ Hds)
    as (sampleRow & rest & b & Hfile & Hb & ->).
  destruct (classify_columns_buckets _ _ _ _ _ Hb) as (Hn & Hd & Ht).
  simpl in Hn, Hd, Ht. exists sampleRow, rest. simpl.
  split; [assumption |]. split; [reflexivity |].
  split; [assumption |]. split; [assumption |]. split.
  - rewrite Ht. now destruct (Spec.of_kind _ _ Text _).
  - split.
    + intros col Hcol. rewrite Hn, Hd, !of_kind_In. unfold Spec.kind.
      destruct (is_nan (Number_ (get sampleRow col)));
        destruct (typeof_boolean (get sampleRow col));
        destruct (is_nan (Date_parse (String_ (get sampleRow col))));
        destruct (includes_char (String_ (get sampleRow col)) "-");
        destruct (includes_char (String_ (get sampleRow col)) "/");
        simpl; intuition congruence.
    + intros fresh_id' file' rest' Hfile'. unfold processExcelFile.
      rewrite Hfile', Hb. eexists. split; [reflexivity |]. now simpl.
Qed.

Lemma column_classification_witness :
  exists (sampleRow : DataRow) (rest : list DataRow),
    file_content infinity_file = FirstSheet (sampleRow :: rest)
    /\ numericColumns
         infinity_dataset
       = Spec.of_kind (Spec.kind no_date) sampleRow Numeric ["n"].
Proof.
  destruct (column_classification no_date "id" infinity_file
              infinity_dataset eq_refl)
    as (sampleRow & rest & Hfile & _ & Hnum & _).
  exists sampleRow, rest. split; [exact Hfile | exact Hnum].
Defined.

(** C4 (as stated) fails: a column whose first cell is the text [Infinity]
    is put with the numeric columns, although [Infinity] is not a finite
    number. *)
Lemma classification_as_stated_fails : ~ Spec.classification_as_stated.
Proof.
  intros H.
  specialize (H no_date "id" infinity_file [("n", JsString "Infinity")] []
                infinity_dataset
                eq_refl eq_refl "n" (or_introl eq_refl)).
  destruct H as [H _]. simpl in H.
  assert (Hin : In "n" ["n"]) by now left.
  apply H in Hin. vm_compute in Hin. discriminate.
Qed.





(** ** Import failures *)

(** C9: when the workbook cannot be read or its first sheet has no row,
    [processExcelFile] rejects, and [handleFileChange] raises one alert and
    leaves the datasets, the active dataset and the boards as they were. *)
Theorem parse_failure_atomic :
  forall (Date_parse : string -> float) (fresh_id : string) (file : File)
         (others : list File) (st : AppState),
    (exists message : string, file_content file = Unreadable message)
    \/ file_content file = FirstSheet [] ->
    (exists err : string,
        processExcelFile Date_parse fresh_id file = Rejected err)
    /\ datasets (handleFileChange Date_parse fresh_id (file :: others) st)
       = datasets st
    /\ activeDatasetId (handleFileChange Date_parse fresh_id (file :: others) st)
       = activeDatasetId st
    /\ boards (handleFileChange Date_parse fresh_id (file :: others) st)
       = boards st
    /\ alerts (handleFileChange Date_parse fresh_id (file :: others) st)
       = alerts st ++ [parse_failure_alert].
Proof.
  intros Date_parse fresh_id file others st Hfail.
  assert (Hrej : exists err : string,
             processExcelFile Date_parse fresh_id file = Rejected err).
  { unfold processExcelFile.
    destruct Hfail as [(message & ->) | ->]; eexists; reflexivity. }
  split; [exact Hrej |].
  destruct Hrej as (err & Hrej). unfold handleFileChange. rewrite Hrej.
  now simpl.
Qed.

Lemma parse_failure_atomic_witness :
  datasets (handleFileChange no_date "id" [corrupt_file] initial_state) = []
  /\ alerts (handleFileChange no_date "id" [empty_file] initial_state)
     = [parse_failure_alert].
Proof.
  split.
  - apply (parse_failure_atomic no_date "id" corrupt_file [] initial_state).
    left. now exists "Unsupported file".
  - apply (parse_failure_atomic no_date "id" empty_file [] initial_state).
    now right.
Defined.

(** ** Common columns *)

Lemma intersection_fold_In (others : list (list string)) (first : list string) :
  forall (acc : list string) (c : string),
    In c
      (fold_left
         (fun result value =>
            if negb (includes result value)
               && forallb (fun other => includes other value) others
            then result ++ [value] else result)
         first acc)
    <-> In c acc
        \/ (In c first /\ forall other, In other others -> In c other).
Proof.
  induction first as [| v first IH]; intros acc c; simpl.
  - tauto.
  - rewrite IH.
    destruct (includes acc v) eqn:Hacc; simpl.
    + apply includes_In in Hacc. split.
      * tauto.
      * intros [H | [[<- | H] Hall]]; tauto.
    + destruct (forallb (fun other => includes other v) others) eqn:Hall.
      * rewrite in_app_iff. simpl.
        assert (Hv : forall other, In other others -> In v other).
        { intros other Ho. rewrite forallb_forall in Hall.
          now apply includes_In, Hall. }
        split.
        -- intros [[H | [<- | []]] | H]; tauto.
        -- intros [H | [[<- | H] Hc]]; tauto.
      * split; [tauto |].
        intros [H | [[<- | H] Hc]]; [tauto | | tauto].
        exfalso.
        assert (Hall' : forallb (fun other => includes other v) others = true).
        { apply forallb_forall. intros other Ho. now apply includes_In, Hc. }
        congruence.
Qed.

Lemma intersection_In (first : list string) (others : list (list string))
  (c : string) :
  In c (intersection (first :: others))
  <-> In c first /\ forall other, In other others -> In c other.
Proof.
  unfold intersection. rewrite intersection_fold_In. simpl. tauto.
Qed.

Lemma intersection_all (arrays : list (list string)) (c : string) :
  In c (intersection arrays)
  <-> arrays <> [] /\ forall a, In a arrays -> In c a.
Proof.
  destruct arrays as [| first others].
  - simpl. split; [intros [] | intros [H _]; now elim H].
  - rewrite intersection_In. split.
    + intros [Hf Ho]. split; [discriminate |].
      intros a [<- | Ha]; [assumption | now apply Ho].
    + intros [_ H]. split; [apply H; now left |].
      intros other Ho. apply H. now right.
Qed.

(** C7: a column is in the global common-column list exactly when there is
    a dataset and every dataset has the column; the lists [A, B, C] and
    [B, C, D] give exactly [B, C]; and a column is in the common-column
    list of a board exactly when some dataset is referenced by a widget of
    the board and every such dataset has the column. *)
Theorem common_columns_intersection :
  (forall (datasets : list Dataset) (c : string),
      In c (commonColumns datasets)
      <-> datasets <> [] /\ forall d, In d datasets -> In c (columns d))
  /\ (forall d1 d2 : Dataset,
         columns d1 = ["A"; "B"; "C"] -> columns d2 = ["B"; "C"; "D"] ->
         commonColumns [d1; d2] = ["B"; "C"])
  /\ (forall (datasets : list Dataset) (board : Board) (c : string),
         In c (getBoardSpecificData datasets board)
         <-> (exists d, In d datasets
                        /\ In (ds_id d) (map datasetId (widgets board)))
             /\ (forall d, In d datasets ->
                           In (ds_id d) (map datasetId (widgets board)) ->
                           In c (columns d))).
Proof.
  split; [| split].
  - intros datasets c. destruct datasets as [| d1 [| d2 rest]].
    + simpl. split; [intros [] | intros [H _]; now elim H].
    + simpl. split.
      * intros H. split; [discriminate |]. now intros d [<- | []].
      * intros [_ H]. apply H. now left.
    + unfold commonColumns. rewrite intersection_all. split.
      * intros [_ H]. split; [discriminate |].
        intros d Hd. apply H. now apply in_map.
      * intros [_ H]. split; [discriminate |].
        intros a Ha. apply in_map_iff in Ha as (d & <- & Hd). now apply H.
  - intros d1 d2 H1 H2. unfold commonColumns. simpl. now rewrite H1, H2.
  - intros datasets board c. unfold getBoardSpecificData.
    set (used := List.filter _ datasets).
    assert (Hused : forall d, In d used
                      <-> In d datasets
                          /\ In (ds_id d) (map datasetId (widgets board))).
    { intros d. unfold used. now rewrite filter_In, includes_In. }
    destruct used as [| u used'] eqn:Hu.
    + simpl. split; [intros [] |].
      intros [(d & Hd) _]. now apply Hused in Hd.
    + change (length (u :: used') =? 0)%nat with false. cbv iota.
      rewrite intersection_all. split.
      * intros [_ H]. split.
        -- exists u. apply Hused. now left.
        -- intros d Hd Hid. apply H. apply in_map. apply Hused. now split.
      * intros [_ H]. split; [discriminate |].
        intros a Ha. apply in_map_iff in Ha as (d & <- & Hd).
        apply Hused in Hd as [Hd Hid]. now apply H.
Qed.

Lemma common_columns_intersection_witness :
  commonColumns [dataset_with_columns "X" ["A"; "B"; "C"];
                 dataset_with_columns "Y" ["B"; "C"; "D"]] = ["B"; "C"].
Proof.
  apply (proj1 (proj2 common_columns_intersection)); reflexivity.
Defined.

(** ** Deleting a dataset *)

Lemma NoDup_map_eq {A B : Type} (f : A -> B) (l : list A) (a b : A) :
  List.NoDup (map f l) -> In a l -> In b l -> f a = f b -> a = b.
Proof.
  induction l as [| x l IH]; simpl; intros Hnd Ha Hb Hab; [now elim Ha |].
  apply NoDup_cons_iff in Hnd as [Hx Hnd].
  destruct Ha as [-> | Ha], Hb as [-> | Hb]; auto.
  - elim Hx. rewrite Hab. now apply in_map.
  - elim Hx. rewrite <- Hab. now apply in_map.
Qed.

Lemma NoDup_map_filter {A B : Type} (f : A -> B) (p : A -> bool) (l : list A) :
  List.NoDup (map f l) -> List.NoDup (map f (List.filter p l)).
Proof.
  induction l as [| x l IH]; simpl; intros Hnd; [constructor |].
  apply NoDup_cons_iff in Hnd as [Hx Hnd].
  destruct (p x); simpl; [| now apply IH].
  apply NoDup_cons_iff. split; [| now apply IH].
  intros Hin. apply Hx. apply in_map_iff in Hin as (y & Hy & Hin).
  apply filter_In in Hin as [Hin _]. rewrite <- Hy. now apply in_map.
Qed.

Lemma shares_removed_widget_spec (id : string) (board : Board) (l : Layout) :
  Spec.shares_removed_widget id board l = true
  <-> exists w, In w (widgets board) /\ datasetId w = id /\ w_i w = l_i l.
Proof.
  unfold Spec.shares_removed_widget. rewrite existsb_exists.
  split; intros (w & Hw & H); exists w; split; try assumption.
  - apply andb_true_iff in H as [H1 H2].
    now apply String.eqb_eq in H1, H2.
  - destruct H as [-> <-]. now rewrite !String.eqb_refl.
Qed.

Lemma remaining_widget_ids (id : string) (ws : list WidgetItem) (x : string) :
  In x (map w_i
          (List.filter (fun w => negb (String.eqb (datasetId w) id)) ws))
  <-> exists w, In w ws /\ datasetId w <> id /\ w_i w = x.
Proof.
  rewrite in_map_iff. split.
  - intros (w & <- & Hw). apply filter_In in Hw as [Hw Hid].
    exists w. repeat split; try assumption.
    apply negb_true_iff in Hid. now apply String.eqb_neq.
  - intros (w & Hw & Hid & <-). exists w. split; [reflexivity |].
    apply filter_In. split; [assumption |].
    apply negb_true_iff. now apply String.eqb_neq.
Qed.

Lemma without_dataset_cascaded (id : string) (board : Board) :
  List.NoDup (map w_i (widgets board)) ->
  (forall x, In x (map l_i (layout board)) <-> In x (map w_i (widgets board))) ->
  Spec.cascaded id board (without_dataset id board).
Proof.
  intros Hnd Hids. unfold Spec.cascaded, without_dataset. simpl.
  repeat split; try reflexivity.
  apply filter_ext_in. intros l Hl.
  apply eq_true_iff_eq. rewrite includes_In, negb_true_iff.
  rewrite remaining_widget_ids.
  rewrite <- not_true_iff_false, shares_removed_widget_spec.
  assert (Hin : In (l_i l) (map w_i (widgets board))).
  { apply Hids. now apply in_map. }
  apply in_map_iff in Hin as (w0 & Hw0 & Hin0).
  split.
  - intros (w & Hw & Hkeep & Hi) (w' & Hw' & Hgone & Hi').
    apply Hkeep. rewrite <- Hgone. f_equal.
    apply (NoDup_map_eq w_i (widgets board)); congruence.
  - intros Hnone. exists w0. repeat split; try assumption.
    intros Hgone. apply Hnone. now exists w0.
Qed.

Lemma without_dataset_ids (id : string) (board : Board) :
  List.NoDup (map w_i (widgets board)) ->
  (forall x, In x (map l_i (layout board)) <-> In x (map w_i (widgets board))) ->
  List.NoDup (map w_i (widgets (without_dataset id board)))
  /\ (forall x,
         In x (map l_i (layout (without_dataset id board)))
         <-> In x (map w_i (widgets (without_dataset id board)))).
Proof.
  intros Hnd Hids. unfold without_dataset. simpl. split.
  - now apply NoDup_map_filter.
  - intros x. rewrite in_map_iff. split.
    + intros (l & <- & Hl). apply filter_In in Hl as [_ Hl].
      now apply includes_In in Hl.
    + intros Hx.
      assert (Hlay : In x (map l_i (layout board))).
      { apply Hids. apply in_map_iff in Hx as (w & <- & Hw).
        apply filter_In in Hw as [Hw _]. now apply in_map. }
      apply in_map_iff in Hlay as (l & <- & Hl). exists l.
      split; [reflexivity |]. apply filter_In. split; [assumption |].
      now apply includes_In.
Qed.

Lemma Forall2_map_r {A B : Type} (R : A -> B -> Prop) (f : A -> B)
  (l : list A) :
  (forall x, In x l -> R x (f x)) -> Forall2 R l (map f l).
Proof.
  induction l as [| a l IH]; simpl; intros H; constructor.
  - apply H. now left.
  - apply IH. intros x Hx. apply H. now right.
Qed.

(** C6 (as amended): in a state where, in each board, the widget ids are
    pairwise distinct and the layout ids are the widget ids, confirming the
    deletion of a dataset removes from every board exactly the widgets of
    that dataset and the layout entries that share their ids, and changes
    nothing else in the boards; the ids still agree afterwards, no widget
    left refers to the deleted id, and a widget whose dataset existed
    before still has it. *)
Theorem dataset_deletion_cascade :
  forall (id : string) (st : AppState),
    (forall board : Board,
        In board (boards st) ->
        List.NoDup (map w_i (widgets board))
        /\ (forall x, In x (map l_i (layout board))
                      <-> In x (map w_i (widgets board)))) ->
    datasets (handleConfirmAction (removeDataset id st))
    = List.filter (fun d => negb (String.eqb (ds_id d) id)) (datasets st)
    /\ Forall2 (Spec.cascaded id) (boards st)
         (boards (handleConfirmAction (removeDataset id st)))
    /\ (forall board' : Board,
           In board' (boards (handleConfirmAction (removeDataset id st))) ->
           List.NoDup (map w_i (widgets board'))
           /\ (forall x, In x (map l_i (layout board'))
                         <-> In x (map w_i (widgets board'))))
    /\ (forall (board' : Board) (w : WidgetItem),
           In board' (boards (handleConfirmAction (removeDataset id st))) ->
           In w (widgets board') ->
           datasetId w <> id
           /\ ((exists d, In d (datasets st) /\ ds_id d = datasetId w) ->
               exists d,
                 In d (datasets (handleConfirmAction (removeDataset id st)))
                 /\ ds_id d = datasetId w)).
Proof.
  intros id st Hwf. simpl. split; [reflexivity |]. split; [| split].
  - apply Forall2_map_r. intros board Hb.
    destruct (Hwf board Hb). now apply without_dataset_cascaded.
  - intros board' Hb'. apply in_map_iff in Hb' as (board & <- & Hb).
    destruct (Hwf board Hb). now apply without_dataset_ids.
  - intros board' w Hb' Hw. apply in_map_iff in Hb' as (board & <- & Hb).
    simpl in Hw. apply filter_In in Hw as [Hw Hid].
    apply negb_true_iff, String.eqb_neq in Hid. split; [assumption |].
    intros (d & Hd & Heq). exists d. split; [| assumption].
    apply filter_In. split; [assumption |].
    apply negb_true_iff, String.eqb_neq. congruence.
Qed.

Lemma dataset_deletion_cascade_witness :
  Forall2 (Spec.cascaded "X") [tidy_board]
    (boards (handleConfirmAction (removeDataset "X" (state_with_board tidy_board)))).
Proof.
  apply (dataset_deletion_cascade "X" (state_with_board tidy_board)).
  intros board [<- | []]. split.
  - simpl. repeat constructor; simpl; intuition discriminate.
  - intros x. simpl. tauto.
Defined.

(** C6 (as stated) fails: two widgets of one board with the same id, on
    different datasets; deleting the dataset of the first keeps the second
    widget and with it every layout entry of that id. *)
Lemma deletion_cascade_as_stated_fails : ~ Spec.deletion_cascade_as_stated.
Proof.
  intros H.
  specialize (H "X" (state_with_board clashing_board)).
  assert (Hids : forall board : Board,
             In board (boards (state_with_board clashing_board)) ->
             map l_i (layout board) = map w_i (widgets board)).
  { intros board [<- | []]. reflexivity. }
  specialize (H Hids). simpl in H.
  inversion H as [| b b' bs bs' Hc _]; subst.
  destruct Hc as (_ & _ & _ & _ & _ & Hlayout).
  vm_compute in Hlayout. discriminate.
Qed.

(** ** Objects *)

Lemma get_set {A : Type} (o : JsObject A) (k k' : string) (v : A) :
  get (set o k v) k' = if String.eqb k k' then Some v else get o k'.
Proof.
  induction o as [| [k0 v0] o IH]; simpl.
  - reflexivity.
  - destruct (String.eqb k0 k) eqn:H0; simpl.
    + apply String.eqb_eq in H0. subst k0.
      now destruct (String.eqb k k').
    + destruct (String.eqb k0 k') eqn:H0'; [| exact IH].
      apply String.eqb_eq in H0'. subst k0. now rewrite String.eqb_sym, H0.
Qed.

Lemma get_own_keys {A : Type} (o : JsObject A) (k : string) :
  includes (own_keys o) k = match get o k with Some _ => true | None => false end.
Proof.
  induction o as [| [k0 v0] o IH]; simpl; [reflexivity |].
  unfold includes in *. simpl. rewrite (String.eqb_sym k k0).
  now destruct (String.eqb k0 k).
Qed.

Lemma own_keys_set {A : Type} (o : JsObject A) (k : string) (v : A) :
  own_keys (set o k v)
  = if includes (own_keys o) k then own_keys o else own_keys o ++ [k].
Proof.
  induction o as [| [k0 v0] o IH]; simpl; [reflexivity |].
  unfold includes in *. simpl. rewrite (String.eqb_sym k k0).
  destruct (String.eqb k0 k) eqn:H0; simpl; [reflexivity |].
  unfold own_keys in *. rewrite IH.
  now destruct (existsb (String.eqb k) (map fst o)).
Qed.

(** ** Grouping *)

Lemma filter_filter {A : Type} (f g : A -> bool) (l : list A) :
  List.filter f (List.filter g l) = List.filter (fun x => g x && f x) l.
Proof.
  induction l as [| a l IH]; simpl; [reflexivity |].
  destruct (g a); simpl; [destruct (f a) |]; now rewrite IH.
Qed.

Lemma includes_app (l l' : list string) (x : string) :
  includes (l ++ l') x = includes l x || includes l' x.
Proof. unfold includes. apply existsb_app. Qed.

Lemma seen_fold_first_occurrences (l : list string) :
  forall seen : list string,
    fold_left (fun seen k => if includes seen k then seen else seen ++ [k])
      l seen
    = seen ++ List.filter (fun y => negb (includes seen y))
                (Spec.first_occurrences l).
Proof.
  induction l as [| x l IH]; intros seen; simpl.
  - now rewrite app_nil_r.
  - rewrite filter_filter. destruct (includes seen x) eqn:Hx; simpl; rewrite IH.
    + f_equal. apply filter_ext. intros y.
      destruct (String.eqb y x) eqn:Hyx; [| reflexivity].
      apply String.eqb_eq in Hyx. subst y. now rewrite Hx.
    + rewrite <- app_assoc. simpl. do 2 f_equal. apply filter_ext. intros y.
      rewrite includes_app. unfold includes at 2. simpl.
      rewrite orb_false_r, negb_orb. apply andb_comm.
Qed.

Section Grouping.
Variable col : string.

Lemma assign_group_own_keys (result : JsObject (list DataRow)) (row : DataRow) :
  own_keys (assign_group col result row)
  = if includes (own_keys result) (Spec.category col row)
    then own_keys result
    else own_keys result ++ [Spec.category col row].
Proof.
  unfold assign_group, Spec.category, DataRow in *. cbv zeta.
  destruct (get result (String_ (get row col))); apply own_keys_set.
Qed.

Lemma assign_group_get (result : JsObject (list DataRow)) (row : DataRow) (k : string) :
  get (assign_group col result row) k
  = if String.eqb (Spec.category col row) k
    then Some (default [] (get result k) ++ [row])
    else get result k.
Proof.
  unfold assign_group, Spec.category, DataRow in *. cbv zeta.
  destruct (String.eqb (String_ (get row col)) k) eqn:Hk.
  - apply String.eqb_eq in Hk. subst k.
    destruct (get result (String_ (get row col))) eqn:Hg;
      rewrite get_set, String.eqb_refl; reflexivity.
  - destruct (get result (String_ (get row col))); rewrite get_set, Hk;
      reflexivity.
Qed.

Lemma fold_assign_own_keys (data : list DataRow) :
  forall acc : JsObject (list DataRow),
    own_keys (fold_left (assign_group col) data acc)
    = fold_left (fun seen k => if includes seen k then seen else seen ++ [k])
        (map (Spec.category col) data) (own_keys acc).
Proof.
  induction data as [| row data IH]; intros acc; simpl; [reflexivity |].
  now rewrite IH, assign_group_own_keys.
Qed.

Lemma fold_assign_get (data : list DataRow) (k : string) :
  forall acc : JsObject (list DataRow),
    default [] (get (fold_left (assign_group col) data acc) k)
    = default [] (get acc k) ++ Spec.group data col k.
Proof.
  induction data as [| row data IH]; intros acc; simpl.
  - now rewrite app_nil_r.
  - rewrite IH, assign_group_get. unfold Spec.group. simpl.
    destruct (String.eqb (Spec.category col row) k); simpl.
    + now rewrite <- app_assoc.
    + reflexivity.
Qed.

Lemma groupBy_own_keys (data : list DataRow) :
  own_keys (groupBy data col)
  = Spec.first_occurrences (map (Spec.category col) data).
Proof.
  unfold groupBy. rewrite fold_assign_own_keys.
  rewrite seen_fold_first_occurrences. simpl.
  induction (Spec.first_occurrences _) as [| x l IH]; simpl; congruence.
Qed.

Lemma groupBy_get (data : list DataRow) (k : string) :
  default [] (get (groupBy data col) k) = Spec.group data col k.
Proof. unfold groupBy. now rewrite fold_assign_get. Qed.

End Grouping.

(** ** Key order *)

Section ArrayIndex.
Local Open Scope Z_scope.









End ArrayIndex.


Lemma insert_index_perm (k : string) (l : list string) :
  Permutation (insert_index k l) (k :: l).
Proof.
  induction l as [| k' l IH]; simpl; [reflexivity |].
  destruct (index_of k <=? index_of k')%Z; [reflexivity |].
  rewrite IH. apply perm_swap.
Qed.

Lemma sort_indices_perm (l : list string) : Permutation (sort_indices l) l.
Proof.
  induction l as [| k l IH]; simpl; [reflexivity |].
  now rewrite insert_index_perm, IH.
Qed.




Lemma filter_split_perm {A : Type} (f : A -> bool) (l : list A) :
  Permutation (List.filter f l ++ List.filter (fun x => negb (f x)) l) l.
Proof.
  induction l as [| a l IH]; simpl; [reflexivity |].
  destruct (f a); simpl.
  - now apply perm_skip.
  - rewrite <- Permutation_middle. now apply perm_skip.
Qed.

Lemma order_keys_perm (ks : list string) : Permutation (order_keys ks) ks.
Proof.
  unfold order_keys. rewrite sort_indices_perm. apply filter_split_perm.
Qed.


Lemma first_occurrences_NoDup (l : list string) :
  List.NoDup (Spec.first_occurrences l).
Proof.
  induction l as [| y l IH]; simpl; constructor.
  - rewrite filter_In, String.eqb_refl. simpl. intuition discriminate.
  - now apply List.NoDup_filter.
Qed.

(** ** Aggregation *)

Lemma sumBy_sum {A : Type} (array : list A) (iteratee : A -> float) :
  sumBy array iteratee = Spec.sum (map iteratee array).
Proof.
  unfold sumBy, Spec.sum. destruct array as [| a array]; simpl; [reflexivity |].
  generalize (iteratee a). induction array as [| b array IH]; intros r; simpl.
  - reflexivity.
  - apply IH.
Qed.

Lemma aggregateData_groups (data : list DataRow) (categoryCol valueCol : string)
  (operation : Operation) :
  aggregateData data categoryCol valueCol operation
  = map (fun key =>
           {| name := key;
              value := Spec.round2
                         (Spec.aggregate operation valueCol
                            (Spec.group data categoryCol key)) |})
        (order_keys
           (Spec.first_occurrences (map (Spec.category categoryCol) data))).
Proof.
  unfold aggregateData, Object_keys. rewrite groupBy_own_keys.
  apply map_ext. intros key. rewrite groupBy_get.
  unfold Spec.round2, Spec.aggregate, Spec.coerce.
  destruct operation; now rewrite ?sumBy_sum.
Qed.







(** C8: the aggregate 1.005, the sum of the single cell [1.005], prints as
    1.005 and rounds half-up to 1.01 on that decimal representation; the
    code returns 1, since in binary64 [1.005 * 100] is
    100.49999999999999. *)
Theorem rounding_of_1_005 :
  aggregateData [example_row "A" (JsString "1.005")] "category" "amount" op_sum
  = [{| name := "A"; value := 1 |}]
  /\ Spec.aggregate op_sum "amount"
       (Spec.group [example_row "A" (JsString "1.005")] "category" "A")
     = 1.005%float
  /\ Number_toString 1.005 = "1.005"
  /\ (1.005 * 100)%float = 100.49999999999999%float
  /\ Spec.round_half_up_decimal 1.005 = 1.01%float
  /\ Spec.round2 1.005 <> Spec.round_half_up_decimal 1.005.
Proof.
  repeat split; try (vm_compute; reflexivity).
  intros H. apply (f_equal (fun v => PrimFloat.ltb v 1.005)) in H.
  vm_compute in H. discriminate.
Qed.


(* ===================================================================== *)
(** * Further properties of the code                                      *)
(* ===================================================================== *)

Import Builtins AppView Modal Render.

(** ** Imports that succeed *)

Lemma own_key_defined {A : Type} (o : JsObject A) (k : string) :
  In k (own_keys o) -> exists v, get o k = Some v.
Proof.
  intros Hk. apply includes_In in Hk. rewrite get_own_keys in Hk.
  destruct (get o k) as [v |]; [now exists v | discriminate].
Qed.

Lemma Object_keys_In {A : Type} (o : JsObject A) (k : string) :
  In k (Object_keys o) <-> In k (own_keys o).
Proof.
  unfold Object_keys. split; apply Permutation_in.
  - apply order_keys_perm.
  - symmetry. apply order_keys_perm.
Qed.

Lemma classify_column_rejected (Date_parse : string -> float)
  (sampleRow : DataRow) (col : string) :
  (exists err, classify_column Date_parse sampleRow col = Rejected err)
  <-> toString (get sampleRow col) = None
      /\ is_nan (Date_parse (String_ (get sampleRow col))) = false.
Proof.
  unfold classify_column, isDate, isNaN.
  destruct (is_nan (Date_parse (String_ (get sampleRow col)))); simpl.
  - split; [intros [err H]; discriminate | intros [_ H]; discriminate].
  - destruct (toString (get sampleRow col)) as [s |].
    + split; [intros [err H]; discriminate | intros [H _]; discriminate].
    + split; [now intros _ | intros _; now eexists].
Qed.

Lemma classify_columns_rejected (Date_parse : string -> float)
  (sampleRow : DataRow) (cols : list string) :
  forall acc : Buckets,
    (exists err, classify_columns Date_parse sampleRow cols acc = Rejected err)
    <-> exists col,
          In col cols
          /\ exists err, classify_column Date_parse sampleRow col = Rejected err.
Proof.
  induction cols as [| c cols IH]; intros acc; simpl.
  - split; [intros [err H]; discriminate | intros (col & [] & _)].
  - destruct (classify_column Date_parse sampleRow c) as [k | e] eqn:Hc.
    + rewrite IH. split.
      * intros (col & Hin & Hrej). exists col. split; [now right | exact Hrej].
      * intros (col & [<- | Hin] & err & Hrej); [congruence |].
        exists col. split; [assumption | now exists err].
    + split; [| intros _; now exists e].
      intros _. exists c. split; [now left | now exists e].
Qed.

Lemma processExcelFile_rejected (Date_parse : string -> float)
  (fresh_id : string) (file : File) (sampleRow : DataRow)
  (rest : list DataRow) :
  file_content file = FirstSheet (sampleRow :: rest) ->
  (exists err, processExcelFile Date_parse fresh_id file = Rejected err)
  <-> (exists col,
          In col (Object_keys sampleRow)
          /\ get sampleRow col = Some JsNull
          /\ is_nan (Date_parse "null") = false).
Proof.
  intros Hfile. unfold processExcelFile. rewrite Hfile.
  transitivity
    (exists err,
        classify_columns Date_parse sampleRow (Object_keys sampleRow) no_buckets
        = Rejected err).
  - destruct (classify_columns _ _ _ _) as [b | e].
    + split; intros [err H]; discriminate.
    + split; intros _; now exists e.
  - rewrite classify_columns_rejected. split.
    + intros (col & Hin & Hrej). exists col. split; [assumption |].
      apply classify_column_rejected in Hrej as [Hts Hdate].
      destruct (own_key_defined sampleRow col) as [v Hv];
        [now apply Object_keys_In |].
      rewrite Hv in Hts, Hdate. destruct v; try discriminate.
      now split.
    + intros (col & Hin & Hnull & Hdate). exists col. split; [assumption |].
      apply classify_column_rejected. now rewrite Hnull.
Qed.

(** X1: the import of a sheet with at least one row is rejected exactly
    when a cell of its first row is [null] while the engine reads the text
    "null" as a date (then [val.toString()] throws); otherwise it resolves
    to a dataset with the drawn id, the name of the file and all the
    parsed rows. *)
Theorem import_of_nonempty_sheet :
  forall (Date_parse : string -> float) (fresh_id : string) (file : File)
         (sampleRow : DataRow) (rest : list DataRow),
    file_content file = FirstSheet (sampleRow :: rest) ->
    ((exists err, processExcelFile Date_parse fresh_id file = Rejected err)
     <-> (exists col,
             In col (Object_keys sampleRow)
             /\ get sampleRow col = Some JsNull
             /\ is_nan (Date_parse "null") = false))
    /\ (forall ds,
           processExcelFile Date_parse fresh_id file = Resolved ds ->
           ds_id ds = fresh_id /\ ds_name ds = file_name file
           /\ rows ds = sampleRow :: rest).
Proof.
  intros Date_parse fresh_id file sampleRow rest Hfile. split.
  - exact (processExcelFile_rejected _ _ _ _ rest Hfile).
  - intros ds Hds.
    destruct (processExcelFile_resolved _ _ _ _ Hds)
      as (r & rest' & b & Hfile' & _ & ->).
    simpl. rewrite Hfile in Hfile'. now injection Hfile' as <- <-.
Qed.

Lemma import_of_nonempty_sheet_witness :
  ds_id infinity_dataset = "id" /\ ds_name infinity_dataset = "inf.xlsx"
  /\ rows infinity_dataset = [[("n", JsString "Infinity")]].
Proof.
  apply (proj2 (import_of_nonempty_sheet no_date "id" infinity_file
                  [("n", JsString "Infinity")] [] eq_refl) infinity_dataset).
  vm_compute. reflexivity.
Defined.

(** X2: when the first sheet has a row and no cell of its first row is
    [null], the import succeeds whatever [Date.parse] does:
    [handleFileChange] adds exactly one dataset, after the others, makes it
    the active one, raises no alert and leaves the boards alone. *)
Theorem import_success :
  forall (Date_parse : string -> float) (fresh_id : string) (file : File)
         (others : list File) (sampleRow : DataRow) (rest : list DataRow)
         (st : AppState),
    file_content file = FirstSheet (sampleRow :: rest) ->
    (forall col, get sampleRow col <> Some JsNull) ->
    exists ds,
      processExcelFile Date_parse fresh_id file = Resolved ds
      /\ datasets (handleFileChange Date_parse fresh_id (file :: others) st)
         = datasets st ++ [ds]
      /\ activeDatasetId (handleFileChange Date_parse fresh_id (file :: others) st)
         = Some fresh_id
      /\ boards (handleFileChange Date_parse fresh_id (file :: others) st)
         = boards st
      /\ alerts (handleFileChange Date_parse fresh_id (file :: others) st)
         = alerts st.
Proof.
  intros Date_parse fresh_id file others sampleRow rest st Hfile Hnonull.
  destruct (processExcelFile Date_parse fresh_id file) as [ds | err] eqn:Hp.
  - exists ds. unfold handleFileChange. rewrite Hp. simpl.
    destruct (processExcelFile_resolved _ _ _ _ Hp) as (r & t & b & _ & _ & ->).
    now simpl.
  - exfalso.
    destruct (processExcelFile_rejected Date_parse fresh_id file sampleRow rest
                Hfile) as [Hrej _].
    destruct Hrej as (col & _ & Hnull & _); [now exists err |].
    now apply (Hnonull col).
Qed.

Lemma import_success_witness :
  exists ds,
    processExcelFile no_date "id" infinity_file = Resolved ds
    /\ datasets (handleFileChange no_date "id" [infinity_file] initial_state)
       = [ds].
Proof.
  destruct (import_success no_date "id" infinity_file []
              [("n", JsString "Infinity")] [] initial_state eq_refl)
    as (ds & Hds & Hsets & _).
  - intros col H. cbn [get] in H.
    destruct (String.eqb "n" col); discriminate.
  - exists ds. split; [exact Hds | exact Hsets].
Defined.

(** ** Layers of filters *)

Lemma row_passes_layers (global local : Selections) (row : DataRow) :
  row_passes global (Some local) row
  = row_passes global None row && row_passes local None row.
Proof.
  unfold row_passes.
  destruct (forallb (passes_entry row) (map_to_list global));
    destruct (forallb (passes_entry row) (map_to_list local)); reflexivity.
Qed.

Lemma row_passes_empty (row : DataRow) : row_passes ∅ None row = true.
Proof. unfold row_passes. now rewrite map_to_list_empty. Qed.

(** X3: the two layers of filters compose: the rows kept under global and
    board-local selections are the rows kept under the global ones alone
    that also pass the local ones; the layers can be swapped; and an empty
    board-local mapping is the same as none. *)
Theorem filter_layers :
  forall (datasets : list Dataset) (global local : Selections)
         (datasetId : string),
    getFilteredRows datasets global (Some local) datasetId
    = List.filter (row_passes local None)
        (getFilteredRows datasets global None datasetId)
    /\ getFilteredRows datasets global (Some local) datasetId
       = getFilteredRows datasets local (Some global) datasetId
    /\ getFilteredRows datasets global (Some ∅) datasetId
       = getFilteredRows datasets global None datasetId.
Proof.
  intros datasets global local datasetId. unfold getFilteredRows.
  destruct (List.find _ datasets) as [ds |]; [| now repeat split].
  split; [| split].
  - rewrite filter_filter. apply filter_ext. intros row.
    apply row_passes_layers.
  - apply filter_ext. intros row. rewrite !row_passes_layers. apply andb_comm.
  - apply filter_ext. intros row.
    now rewrite row_passes_layers, row_passes_empty, andb_true_r.
Qed.

(** ** Groups *)







Lemma sum_of_zeros (l : list float) :
  (forall x, In x l -> x = zero) -> Spec.sum l = zero.
Proof.
  unfold Spec.sum. destruct l as [| x l]; [reflexivity |].
  intros H. rewrite (H x (or_introl eq_refl)).
  assert (Hl : forall y, In y l -> y = zero) by (intros y Hy; apply H; now right).
  clear H. induction l as [| y l IH]; [reflexivity |]. simpl.
  rewrite (Hl y (or_introl eq_refl)).
  change (zero + zero)%float with zero.
  apply IH. intros z Hz. apply Hl. now right.
Qed.

(** X6: a value that is missing or does not read as a number counts for
    zero: when no row has a numeric value in the value column, every sum is
    0. *)
Theorem sum_without_numbers :
  forall (data : list DataRow) (categoryCol valueCol : string),
    (forall row, In row data -> is_nan (Number_ (get row valueCol)) = true) ->
    forall point,
      In point (aggregateData data categoryCol valueCol op_sum) ->
      value point = zero.
Proof.
  intros data categoryCol valueCol Hnan point Hpoint.
  rewrite aggregateData_groups in Hpoint.
  apply in_map_iff in Hpoint as (key & <- & _). cbn [value].
  unfold Spec.aggregate. rewrite sum_of_zeros; [reflexivity |].
  intros x Hx. apply in_map_iff in Hx as (row & <- & Hrow).
  apply filter_In in Hrow as [Hrow _].
  unfold Spec.coerce, or_zero. now rewrite (Hnan row Hrow).
Qed.

Lemma sum_without_numbers_witness :
  Forall (fun point => value point = zero)
    (aggregateData [example_row "A" (JsString "n/a")]
       "category" "amount" op_sum).
Proof.
  apply List.Forall_forall.
  apply (sum_without_numbers [example_row "A" (JsString "n/a")]
           "category" "amount").
  intros row [<- | []]. reflexivity.
Defined.

(** ** The order of the common columns *)

Lemma intersection_first_occurrences (first : list string)
  (others : list (list string)) :
  intersection (first :: others)
  = Spec.first_occurrences
      (List.filter (fun v => forallb (fun other => includes other v) others)
         first).
Proof.
  unfold intersection.
  assert (H : forall acc,
             fold_left
               (fun result value =>
                  if negb (includes result value)
                     && forallb (fun other => includes other value) others
                  then result ++ [value] else result)
               first acc
             = fold_left
                 (fun seen k => if includes seen k then seen else seen ++ [k])
                 (List.filter
                    (fun v => forallb (fun other => includes other v) others)
                    first)
                 acc).
  { induction first as [| v first IH]; intros acc; simpl; [reflexivity |].
    destruct (forallb (fun other => includes other v) others); simpl.
    - rewrite IH. now destruct (includes acc v).
    - rewrite andb_false_r. apply IH. }
  rewrite H, seen_fold_first_occurrences. simpl.
  induction (Spec.first_occurrences _) as [| x l IH]; simpl; congruence.
Qed.

Lemma first_occurrences_sublist (l : list string) :
  Spec.first_occurrences l `sublist_of` l.
Proof.
  induction l as [| x l IH]; simpl; [constructor |].
  constructor. etransitivity; [apply filter_sublist | exact IH].
Qed.

(** X7: the common columns come in the order of the columns of the first
    dataset: the global list is a subsequence of the columns of the first
    dataset, the list of a board a subsequence of the columns of the first
    dataset that the board uses; with two datasets or more, and for a
    board always, no column is listed twice. *)
Theorem common_columns_order :
  (forall (d : Dataset) (rest : list Dataset),
      commonColumns (d :: rest) `sublist_of` columns d
      /\ (rest <> [] -> List.NoDup (commonColumns (d :: rest))))
  /\ (forall (datasets : list Dataset) (board : Board),
         List.NoDup (getBoardSpecificData datasets board)
         /\ forall (d : Dataset) (rest : list Dataset),
              usedDatasets datasets board = d :: rest ->
              getBoardSpecificData datasets board `sublist_of` columns d).
Proof.
  split.
  - intros d rest. destruct rest as [| d2 rest].
    + split; [reflexivity | intros H; now elim H].
    + unfold commonColumns. cbn [map]. rewrite intersection_first_occurrences.
      split.
      * etransitivity; [apply first_occurrences_sublist | apply filter_sublist].
      * intros _. apply first_occurrences_NoDup.
  - intros datasets board. unfold getBoardSpecificData.
    fold (usedDatasets datasets board).
    destruct (usedDatasets datasets board) as [| d rest] eqn:Hused.
    + split; [constructor | discriminate].
    + change (length (d :: rest) =? 0)%nat with false. cbv iota. cbn [map].
      rewrite intersection_first_occurrences. split.
      * apply first_occurrences_NoDup.
      * intros d' rest' [= <- <-].
        etransitivity; [apply first_occurrences_sublist | apply filter_sublist].
Qed.

Lemma common_columns_order_witness :
  List.NoDup (commonColumns [dataset_with_columns "X" ["A"; "B"; "A"];
                             dataset_with_columns "Y" ["B"; "A"]]).
Proof.
  apply (proj1 common_columns_order). discriminate.
Defined.

(** ** What the actions keep *)

Import Invariants.




















(** X10: a deletion is confirmed with the datasets of the render that
    asked for it. A file whose import completes while the dialog is open is
    therefore dropped by the confirmation: the registry ends up as the old
    one without the deleted dataset, and, unless the deleted dataset was
    the active one, the active id is that of the dropped import, which
    names no dataset. *)
Theorem confirmation_drops_import :
  forall (Date_parse : string -> float) (fresh_id id : string) (file : File)
         (others : list File) (ds : Dataset) (st : AppState),
    processExcelFile Date_parse fresh_id file = Resolved ds ->
    (forall d, In d (datasets st) -> ds_id d <> fresh_id) ->
    activeDatasetId st <> Some id ->
    datasets
      (handleConfirmAction
         (handleFileChange Date_parse fresh_id (file :: others)
            (removeDataset id st)))
    = List.filter (fun d => negb (String.eqb (ds_id d) id)) (datasets st)
    /\ activeDatasetId
         (handleConfirmAction
            (handleFileChange Date_parse fresh_id (file :: others)
               (removeDataset id st)))
       = Some fresh_id
    /\ activeDataset
         (handleConfirmAction
            (handleFileChange Date_parse fresh_id (file :: others)
               (removeDataset id st)))
       = None.
Proof.
  intros Date_parse fresh_id id file others ds st Hds Hfresh Hactive.
  assert (Hid : ds_id ds = fresh_id).
  { destruct (processExcelFile_resolved _ _ _ _ Hds) as (r & t & b & _ & _ & ->).
    reflexivity. }
  unfold handleFileChange. rewrite Hds. unfold activeDataset. simpl.
  rewrite Hid. case_bool_decide; [contradiction |].
  split; [reflexivity |]. split; [reflexivity |].
  apply find_none_iff. intros d Hd. apply filter_In in Hd as [Hd _].
  apply String.eqb_neq. now apply Hfresh.
Qed.

Lemma confirmation_drops_import_witness :
  datasets
    (handleConfirmAction
       (handleFileChange no_date "id" [infinity_file]
          (removeDataset "Y" (state_with_board tidy_board))))
  = [dataset_with_columns "X" ["A"]].
Proof.
  apply (confirmation_drops_import no_date "id" "Y" infinity_file []
           infinity_dataset (state_with_board tidy_board) eq_refl).
  - intros d [<- | [<- | []]]; discriminate.
  - discriminate.
Defined.

(** ** What a chart shows *)



(** ** Widgets and boards *)

Lemma filter_idempotent {A : Type} (f : A -> bool) (l : list A) :
  List.filter f (List.filter f l) = List.filter f l.
Proof.
  rewrite filter_filter. apply filter_ext. intros x. apply andb_diag.
Qed.

Lemma filter_all {A : Type} (f : A -> bool) (l : list A) :
  (forall x, In x l -> f x = true) -> List.filter f l = l.
Proof.
  induction l as [| a l IH]; simpl; intros H; [reflexivity |].
  rewrite (H a (or_introl eq_refl)). f_equal. apply IH.
  intros x Hx. apply H. now right.
Qed.

Lemma map_unchanged {A : Type} (g : A -> A) (l : list A) :
  (forall x, In x l -> g x = x) -> map g l = l.
Proof.
  intros H. rewrite <- (map_id l) at 2. now apply map_ext_in.
Qed.

Lemma with_widgets_layout_same (b : Board) :
  with_widgets_layout (widgets b) (layout b) b = b.
Proof. now destruct b. Qed.

Lemma setBoards_same (st : AppState) (update : list Board -> list Board) :
  update (boards st) = boards st -> setBoards update st = st.
Proof. unfold setBoards. intros ->. now destruct st. Qed.

(** X12: [handleRemoveWidget] takes a widget and its layout entry
    together: afterwards no board with the given id has a widget or a
    layout entry of the given id; the boards with another id are as they
    were; removing again changes nothing; and removing an id that the
    board does not have leaves the whole state as it was. *)
Theorem remove_widget_effects :
  forall (boardId widgetId : string) (st : AppState),
    (forall b', In b' (boards (handleRemoveWidget boardId widgetId st)) ->
                board_id b' = boardId ->
                ~ In widgetId (map w_i (widgets b'))
                /\ ~ In widgetId (map l_i (layout b')))
    /\ (forall b, In b (boards st) -> board_id b <> boardId ->
                  In b (boards (handleRemoveWidget boardId widgetId st)))
    /\ handleRemoveWidget boardId widgetId
         (handleRemoveWidget boardId widgetId st)
       = handleRemoveWidget boardId widgetId st
    /\ ((forall b, In b (boards st) -> board_id b = boardId ->
                   ~ In widgetId (map w_i (widgets b))
                   /\ ~ In widgetId (map l_i (layout b))) ->
        handleRemoveWidget boardId widgetId st = st).
Proof.
  intros boardId widgetId st. split; [| split; [| split]].
  - intros b' Hb' Hid. simpl in Hb'. unfold in_board in Hb'.
    apply in_map_iff in Hb' as (b & <- & Hb).
    destruct (String.eqb (board_id b) boardId) eqn:Heq; simpl in *.
    + split; rewrite in_map_iff; intros (x & Hx & Hin);
        apply filter_In in Hin as [_ Hne];
        apply negb_true_iff, String.eqb_neq in Hne; contradiction.
    + apply String.eqb_neq in Heq. contradiction.
  - intros b Hb Hid. simpl. unfold in_board. apply in_map_iff. exists b.
    split; [| assumption]. apply String.eqb_neq in Hid. now rewrite Hid.
  - unfold handleRemoveWidget, setBoards. simpl. f_equal.
    unfold in_board. rewrite map_map. apply map_ext. intros b.
    destruct (String.eqb (board_id b) boardId) eqn:Heq; simpl.
    + rewrite Heq. simpl. unfold with_widgets_layout. simpl.
      now rewrite !filter_idempotent.
    + now rewrite Heq.
  - intros Habsent. apply setBoards_same. unfold in_board.
    apply map_unchanged. intros b Hb.
    destruct (String.eqb (board_id b) boardId) eqn:Heq; simpl; [| reflexivity].
    apply String.eqb_eq in Heq. destruct (Habsent b Hb Heq) as [Hw Hl].
    rewrite !filter_all; [apply with_widgets_layout_same | |].
    + intros l Hin. apply negb_true_iff, String.eqb_neq. intros <-.
      apply Hl. now apply in_map.
    + intros w Hin. apply negb_true_iff, String.eqb_neq. intros <-.
      apply Hw. now apply in_map.
Qed.

Lemma remove_widget_effects_witness :
  handleRemoveWidget "default" "zz" (state_with_board tidy_board)
  = state_with_board tidy_board.
Proof.
  apply (remove_widget_effects "default" "zz" (state_with_board tidy_board)).
  intros b [<- | []] _. simpl. intuition discriminate.
Defined.

(** ** The widget modal *)


Lemma edited_same (cfg : ConfigObject) (w : WidgetItem) :
  c_type cfg = w_type w -> c_title cfg = title w -> c_config cfg = config w ->
  edited cfg w = w.
Proof. unfold edited. intros -> -> ->. now destruct w. Qed.

Lemma bound_or_empty (col : option string) :
  bound col -> or_empty col <> "" /\ col = Some (or_empty col).
Proof. intros (name & -> & Hname). now split. Qed.

Lemma resubmit_unchanged (w : WidgetItem) :
  widget_shaped w ->
  exists cfg,
    handleSubmit (opened (Some (initial_of_widget w))) = inr cfg
    /\ c_type cfg = w_type w /\ c_title cfg = title w
    /\ c_config cfg = config w.
Proof.
  intros [Htitle Hcols]. unfold handleSubmit, opened, initial_of_widget.
  simpl. apply String.eqb_neq in Htitle. rewrite Htitle.
  destruct (is_timeline (w_type w)).
  - destruct Hcols as (Hc & Hv & Hd & He).
    apply bound_or_empty in Hd as [Hd Hd'], He as [He He'].
    apply String.eqb_neq in Hd, He. rewrite Hd, He. simpl.
    eexists. split; [reflexivity |]. simpl. repeat split.
    destruct (config w); simpl in *. congruence.
  - destruct Hcols as (Hc & Hv & Hd & He).
    apply bound_or_empty in Hc as [Hc Hc'], Hv as [Hv Hv'].
    apply String.eqb_neq in Hc, Hv. rewrite Hc, Hv. simpl.
    eexists. split; [reflexivity |]. simpl. repeat split.
    destruct (config w); simpl in *. congruence.
Qed.

(** X14: editing a widget and saving the form as it opened changes no
    board: for a widget made by the modal, in a board where no other
    widget has its id, [handleEditWidget], the opening of the modal,
    [handleSubmit] and [handleSaveWidget] give back the boards as they
    were, end the editing, and leave the dataset of the widget active. *)
Theorem edit_without_change :
  forall (boardId fresh_id : string) (b : Board) (w : WidgetItem)
         (st : AppState) (v : ViewState),
    In b (boards st) -> board_id b = boardId -> In w (widgets b) ->
    boardId <> "" -> w_i w <> "" -> widget_shaped w ->
    (forall b' w', In b' (boards st) -> board_id b' = boardId ->
                   In w' (widgets b') -> w_i w' = w_i w -> w' = w) ->
    exists cfg,
      handleSubmit
        (opened (initialWidgetConfig (snd (handleEditWidget boardId w st v))))
      = inr cfg
      /\ boards
           (fst (handleSaveWidget fresh_id cfg
                   (fst (handleEditWidget boardId w st v))
                   (snd (handleEditWidget boardId w st v))))
         = boards st
      /\ activeDatasetId
           (fst (handleSaveWidget fresh_id cfg
                   (fst (handleEditWidget boardId w st v))
                   (snd (handleEditWidget boardId w st v))))
         = Some (datasetId w)
      /\ snd (handleSaveWidget fresh_id cfg
                (fst (handleEditWidget boardId w st v))
                (snd (handleEditWidget boardId w st v)))
         = (None, None).
Proof.
  intros boardId fresh_id b w st v Hb Hid Hw Hboard Hwid Hshape Huniq.
  destruct (resubmit_unchanged w Hshape) as (cfg & Hsubmit & Ht & Hti & Hc).
  exists cfg. split; [exact Hsubmit |].
  unfold handleSaveWidget, handleEditWidget. simpl.
  apply String.eqb_neq in Hboard, Hwid. rewrite Hwid. simpl.
  rewrite Hboard. simpl.
  split; [| split; reflexivity].
  unfold in_board. apply map_unchanged. intros b' Hb'.
  destruct (String.eqb (board_id b') boardId) eqn:Heq; simpl; [| reflexivity].
  apply String.eqb_eq in Heq.
  rewrite (map_unchanged _ (widgets b')); [apply with_widgets_layout_same |].
  intros w' Hw'. destruct (String.eqb (w_i w') (w_i w)) eqn:Hsame;
    [| reflexivity].
  apply String.eqb_eq in Hsame.
  rewrite (Huniq b' w' Hb' Heq Hw' Hsame). now apply edited_same.
Qed.


Lemma edit_without_change_witness :
  exists cfg,
    handleSubmit
      (opened
         (initialWidgetConfig
            (snd (handleEditWidget "default" (example_widget "a" "X")
                    (state_with_board tidy_board) list_of_boards))))
    = inr cfg
    /\ boards
         (fst (handleSaveWidget "new" cfg
                 (fst (handleEditWidget "default" (example_widget "a" "X")
                         (state_with_board tidy_board) list_of_boards))
                 (snd (handleEditWidget "default" (example_widget "a" "X")
                         (state_with_board tidy_board) list_of_boards))))
       = [tidy_board].
Proof.
  destruct (edit_without_change "default" "new" tidy_board
              (example_widget "a" "X") (state_with_board tidy_board)
              list_of_boards) as (cfg & Hsubmit & Hboards & _).
  - now left.
  - reflexivity.
  - now left.
  - discriminate.
  - discriminate.
  - split; [discriminate |]. simpl. unfold bound.
    repeat split; eauto; eexists; (split; [reflexivity | discriminate]).
  - intros b' w' [<- | []] _ [<- | [<- | []]] Hsame;
      [reflexivity | discriminate].
  - exists cfg. split; [exact Hsubmit | exact Hboards].
Defined.

(** ** Renaming and deleting boards *)

Example trim_examples :
  map trim ["  Q1 board "; "Q1"; "  "; ""; " a  b"]
  = ["Q1 board"; "Q1"; ""; ""; "a  b"].
Proof. vm_compute. reflexivity. Qed.



(** X16: deleting a board takes it out of the views: no board of that id
    is left and the other boards keep their order; the id is no longer
    among the boards selected for the split view; when the board was the
    one shown, the view goes back to the list and no board is active,
    otherwise the view stays; and the boards that the view names still
    exist. *)
Theorem delete_board_cascade :
  forall (boardId : string) (st : AppState) (v : ViewState),
    view_consistent (boards st) v ->
    (forall b,
        In b (boards (fst (deleteBoard_onConfirm (activeBoardId v) boardId st v)))
        <-> In b (boards st) /\ board_id b <> boardId)
    /\ boards (fst (deleteBoard_onConfirm (activeBoardId v) boardId st v))
       `sublist_of` boards st
    /\ ~ In boardId
         (selectedBoardIds
            (snd (deleteBoard_onConfirm (activeBoardId v) boardId st v)))
    /\ (activeBoardId v = Some boardId ->
        activeBoardId (snd (deleteBoard_onConfirm (activeBoardId v) boardId st v))
        = None
        /\ viewMode (snd (deleteBoard_onConfirm (activeBoardId v) boardId st v))
           = list_view)
    /\ (activeBoardId v <> Some boardId ->
        activeBoardId (snd (deleteBoard_onConfirm (activeBoardId v) boardId st v))
        = activeBoardId v
        /\ viewMode (snd (deleteBoard_onConfirm (activeBoardId v) boardId st v))
           = viewMode v)
    /\ view_consistent
         (boards (fst (deleteBoard_onConfirm (activeBoardId v) boardId st v)))
         (snd (deleteBoard_onConfirm (activeBoardId v) boardId st v)).
Proof.
  intros boardId st v [Hsel Hact]. simpl.
  assert (Hin : forall b,
             In b (List.filter (fun b => negb (String.eqb (board_id b) boardId))
                     (boards st))
             <-> In b (boards st) /\ board_id b <> boardId).
  { intros b. now rewrite filter_In, negb_true_iff, String.eqb_neq. }
  split; [exact Hin |]. split; [apply filter_sublist |]. split.
  - rewrite filter_In, String.eqb_refl. simpl. intuition discriminate.
  - split; [| split].
    + intros Ha. case_bool_decide; [now split | contradiction].
    + intros Ha. case_bool_decide; [contradiction | now split].
    + split.
      * intros id Hid. apply filter_In in Hid as [Hid Hne].
        apply negb_true_iff in Hne. apply String.eqb_neq in Hne.
        destruct (Hsel id Hid) as (b & Hb & Heq). exists b.
        split; [| assumption]. apply Hin. split; [assumption |].
        now rewrite Heq.
      * intros id. case_bool_decide as Ha; [discriminate |].
        intros Hid. destruct (Hact id Hid) as (b & Hb & Heq). exists b.
        split; [| assumption]. apply Hin. split; [assumption |].
        intros Hb'. apply Ha. simpl in Hid. congruence.
Qed.

Lemma delete_board_cascade_witness :
  activeBoardId
    (snd (deleteBoard_onConfirm (Some "default") "default" initial_state
            default_board_open)) = None
  /\ boards
       (fst (deleteBoard_onConfirm (Some "default") "default" initial_state
               default_board_open)) = [].
Proof.
  destruct (delete_board_cascade "default" initial_state default_board_open)
    as (_ & _ & _ & Hactive & _).
  - split.
    + intros id [<- | []]. eexists. split; [now left | reflexivity].
    + intros id [= <-]. eexists. split; [now left | reflexivity].
  - split; [apply Hactive; reflexivity | reflexivity].
Defined.

(** ** Slicer toggles *)

Lemma toggled_In (l : list string) (val x : string) :
  In x (toggled l val) <-> (x = val /\ ~ In val l) \/ (x <> val /\ In x l).
Proof.
  unfold toggled. destruct (includes l val) eqn:Hinc.
  - apply includes_In in Hinc. rewrite filter_In, negb_true_iff, String.eqb_neq.
    split.
    + intros [Hx Hne]. now right.
    + intros [[_ Hn] | [Hne Hx]]; [contradiction | now split].
  - apply includes_not_In in Hinc. rewrite in_app_iff. split.
    + intros [Hx | [<- | []]].
      * right. split; [| assumption]. intros ->. contradiction.
      * now left.
    + intros [[-> _] | [_ Hx]]; [right; now left | now left].
Qed.

















(** ** The values of a slicer *)


Lemma code_unit_ltb_irrefl (a : string) : code_unit_ltb a a = false.
Proof.
  induction a as [| x a IH]; simpl; [reflexivity |].
  now rewrite Nat.ltb_irrefl.
Qed.




Lemma sort_insert_length (x : string) (l : list string) :
  length (sort_insert x l) = S (length l).
Proof.
  induction l as [| z l IH]; simpl; [reflexivity |].
  destruct (code_unit_ltb z x); simpl; now rewrite ?IH.
Qed.



Lemma sort_length (l : list string) : length (sort l) = length l.
Proof.
  unfold sort. induction l as [| x l IH]; simpl; [reflexivity |].
  now rewrite sort_insert_length, IH.
Qed.








(** ** The split view and the names of the boards *)

(** X22: the split view shows the selected boards in the order of the
    list of boards, whatever the order they were selected in; and a click
    on the check box of a board flips whether the boards of that id are
    shown and changes nothing for the others. *)
Theorem split_view_boards :
  forall (boards : list Board) (selected : list string) (boardId : string),
    splitBoards boards selected `sublist_of` boards
    /\ forall b,
         In b (splitBoards boards (toggleBoardSelection boardId selected))
         <-> In b boards
             /\ (if String.eqb (board_id b) boardId
                 then ~ In boardId selected
                 else In (board_id b) selected).
Proof.
  intros boards selected boardId. split; [apply filter_sublist |].
  intros b. unfold splitBoards. rewrite filter_In, includes_In.
  change (toggleBoardSelection boardId selected) with (toggled selected boardId).
  rewrite toggled_In.
  destruct (String.eqb_spec (board_id b) boardId) as [Heq | Hne].
  - rewrite Heq. intuition.
  - intuition.
Qed.

(** X23: the names that [handleAddBoard] gives are not unique: a board is
    named after the number of boards at the time, so adding a board,
    deleting an older one and adding again gives two boards of the same
    name. *)
Theorem board_names_repeat :
  forall (fresh1 fresh2 boardId : string) (now1 now2 : float) (st : AppState)
         (v : ViewState),
    length (List.filter (fun b => String.eqb (board_id b) boardId) (boards st))
    = 1%nat ->
    fresh1 <> boardId ->
    exists rest b1 b2,
      boards
        (handleAddBoard fresh2 now2
           (fst (deleteBoard_onConfirm (activeBoardId v) boardId
                   (handleAddBoard fresh1 now1 st) v)))
      = rest ++ [b1; b2]
      /\ rest `sublist_of` boards st
      /\ board_id b1 = fresh1 /\ board_id b2 = fresh2
      /\ board_name b1 = board_name b2.
Proof.
  intros fresh1 fresh2 boardId now1 now2 st v Hone Hfresh.
  unfold handleAddBoard, deleteBoard_onConfirm, setBoards. cbn [fst boards].
  rewrite List.filter_app. cbn [List.filter board_id].
  apply String.eqb_neq in Hfresh. rewrite Hfresh. cbn [negb].
  eexists _, _, _. split; [rewrite <- app_assoc; reflexivity |].
  split; [apply filter_sublist |]. split; [reflexivity |].
  split; [reflexivity |]. cbn [board_name]. do 3 f_equal.
  pose proof (filter_length (fun b => String.eqb (board_id b) boardId) (boards st))
    as Hlen.
  rewrite Hone in Hlen. rewrite length_app. cbn [length]. f_equal. lia.
Qed.

Lemma board_names_repeat_witness :
  exists rest b1 b2,
    boards
      (handleAddBoard "c" 2
         (fst (deleteBoard_onConfirm (activeBoardId list_of_boards) "default"
                 (handleAddBoard "b" 1 initial_state) list_of_boards)))
    = rest ++ [b1; b2]
    /\ rest `sublist_of` boards initial_state
    /\ board_id b1 = "b" /\ board_id b2 = "c"
    /\ board_name b1 = board_name b2.
Proof.
  apply (board_names_repeat "b" "c" "default" 1 2 initial_state list_of_boards).
  - reflexivity.
  - discriminate.
Defined.

(** ** Adding a widget *)

(** X24: saving the form of a new widget adds it only when a board is
    shown and a dataset is active; otherwise nothing changes, and nothing
    is said. When it is added, the boards with the id of the shown board
    get the widget, bound to the active dataset, after their widgets, and
    a layout entry of the same id after their layout entries; the other
    boards, the datasets and the active dataset are as they were. *)
Theorem add_widget_effects :
  forall (fresh_id : string) (cfg : ConfigObject) (st : AppState)
         (v : ViewState),
    truthy (editingWidgetId v) = false ->
    (truthy (activeBoardId v) = false \/ truthy (activeDatasetId st) = false ->
     handleSaveWidget fresh_id cfg st v
     = (st, (editingWidgetId v, operatingBoardId v)))
    /\ (forall boardId dsId,
           activeBoardId v = Some boardId -> boardId <> "" ->
           activeDatasetId st = Some dsId -> dsId <> "" ->
           Forall2
             (fun b b' =>
                board_id b' = board_id b /\ board_name b' = board_name b
                /\ filters b' = filters b /\ createdAt b' = createdAt b
                /\ if String.eqb (board_id b) boardId
                   then widgets b'
                        = widgets b
                          ++ [{| w_i := fresh_id; datasetId := dsId;
                                 w_type := c_type cfg; title := c_title cfg;
                                 config := c_config cfg |}]
                        /\ exists l, layout b' = layout b ++ [l]
                                     /\ l_i l = fresh_id
                   else b' = b)
             (boards st) (boards (fst (handleSaveWidget fresh_id cfg st v)))
           /\ datasets (fst (handleSaveWidget fresh_id cfg st v)) = datasets st
           /\ activeDatasetId (fst (handleSaveWidget fresh_id cfg st v))
              = Some dsId
           /\ alerts (fst (handleSaveWidget fresh_id cfg st v)) = alerts st).
Proof.
  intros fresh_id cfg st v Hnew. unfold handleSaveWidget. rewrite Hnew. split.
  - intros [Hb | Hd].
    + now rewrite Hb.
    + destruct (truthy (activeBoardId v)); [| reflexivity]. now rewrite Hd.
  - intros boardId dsId Hboard Hbne Hds Hdne.
    rewrite Hboard, Hds. cbn [truthy].
    apply String.eqb_neq in Hbne. apply String.eqb_neq in Hdne.
    rewrite Hbne, Hdne.
    cbn [negb fst from_option id setBoards boards datasets activeDatasetId alerts].
    split; [| now repeat split].
    set (l := newLayoutItem _ _ _).
    assert (Hl : l_i l = fresh_id) by reflexivity. clearbody l.
    induction (boards st) as [| b bs IH]; [constructor |].
    cbn [in_board map]. constructor; [| exact IH].
    destruct (String.eqb (board_id b) boardId) eqn:Heq; cbn [negb].
    + repeat (split; [reflexivity |]). exists l. now split.
    + now repeat split.
Qed.

Lemma add_widget_effects_witness :
  handleSaveWidget "new" {| c_type := bar; c_title := "chart";
                            c_config := example_config |}
    initial_state default_board_open
  = (initial_state, (None, None)).
Proof.
  apply (proj1 (add_widget_effects "new"
                  {| c_type := bar; c_title := "chart";
                     c_config := example_config |}
                  initial_state default_board_open eq_refl)).
  right. reflexivity.
Defined.

(** ** A click on a field *)

